(** * ai_starter: the command-line dispatcher and its HTTP client wrapper

    A shallow embedding of [src/ai_starter/main.py] and
    [src/ai_starter/services/example_service.py], with the properties of the
    specification stated over it, and of the handlers of
    [src/ai_starter/logging.py] and the cached settings of
    [src/ai_starter/config.py].

    - Python [str] values are lists of Unicode code points; the [str] methods
      the sources call ([strip], [rstrip], [lower], [isdigit], [replace],
      [count], [split], [in]) follow CPython, with the character classes of
      Unicode 14.
    - Exceptions are values of [exn]; a call returns [Ok v] or [Raise e].
    - Standard output, the requests handed to [requests.Session.get] and the
      closing of sessions are recorded in a [World] that survives exceptions.
    - The process environment (argparse, the settings provider, the logger,
      the network) is an [Env] record of outcomes.
    - Printing, [json.dumps] and the logger's own calls are taken to succeed;
      log lines are not part of the model. *)

From Stdlib Require Import ZArith NArith List String Ascii Bool Lia.
From Stdlib Require Import DecimalString.
Import ListNotations.

(* ================================================================== *)
(** ** Python strings *)

Module Py.

Definition char := N.
Definition str := list char.

(** An ASCII literal of the sources as a [str]. *)
Definition lit (s : string) : str := List.map N_of_ascii (list_ascii_of_string s).

Definition char_eqb (a b : char) : bool := N.eqb a b.

Fixpoint str_eqb (a b : str) : bool :=
  match a, b with
  | [], [] => true
  | x :: a', y :: b' => char_eqb x y && str_eqb a' b'
  | _, _ => false
  end.

Definition in_range (lo hi : N) (c : char) : bool := (N.leb lo c) && (N.leb c hi).

Definition in_ranges (rs : list (N * N)) (c : char) : bool :=
  existsb (fun r => in_range (fst r) (snd r) c) rs.

(** [str.isspace] on one code point: the characters [str.strip()] removes. *)
Definition whitespace_ranges : list (N * N) :=
  [ (9, 13); (28, 32); (133, 133); (160, 160); (5760, 5760); (8192, 8202);
    (8232, 8233); (8239, 8239); (8287, 8287); (12288, 12288) ]%N.

Definition isspace_char : char -> bool := in_ranges whitespace_ranges.

(** First code point of every run of ten decimal digits (General_Category
    Nd); the code point [a + d] of a run starting at [a] has value [d]. *)
Definition decimal_blocks : list N :=
  [ 48; 1632; 1776; 1984; 2406; 2534; 2662; 2790; 2918; 3046; 3174; 3302;
    3430; 3558; 3664; 3792; 3872; 4160; 4240; 6112; 6160; 6470; 6608; 6784;
    6800; 6992; 7088; 7232; 7248; 42528; 43216; 43264; 43472; 43504; 43600;
    44016; 65296; 66720; 68912; 69734; 69872; 69942; 70096; 70384; 70736;
    70864; 71248; 71360; 71472; 71904; 72016; 72784; 73040; 73120; 92768;
    92864; 93008; 120782; 120792; 120802; 120812; 120822; 123200; 123632;
    125264; 130032 ]%N.

(** The value of a decimal digit: what [int] and [float] accept as a digit. *)
Definition decimal_value (c : char) : option N :=
  match find (fun a => in_range a (a + 9) c) decimal_blocks with
  | Some a => Some (c - a)%N
  | None => None
  end.

Definition isdecimal_char (c : char) : bool :=
  match decimal_value c with Some _ => true | None => false end.

(** Code points with Numeric_Type=Digit that are not decimal digits:
    superscripts, subscripts, circled and parenthesised digits and the like.
    [str.isdigit] accepts them, [int] and [float] do not. *)
Definition other_digit_ranges : list (N * N) :=
  [ (178, 179); (185, 185); (4969, 4977); (6618, 6618); (8304, 8304);
    (8308, 8313); (8320, 8329); (9312, 9320); (9332, 9340); (9352, 9360);
    (9450, 9450); (9461, 9469); (9471, 9471); (10102, 10110); (10112, 10120);
    (10122, 10130); (68160, 68163); (69216, 69224); (69714, 69722);
    (127232, 127242) ]%N.

Definition isdigit_char (c : char) : bool :=
  isdecimal_char c || in_ranges other_digit_ranges c.

(** [s.isdigit()]: every character is a digit and there is at least one. *)
Definition isdigit (s : str) : bool :=
  match s with [] => false | _ => forallb isdigit_char s end.

(** [str.lower] on one code point.  Exact on every code point whose
    lower-case form contains an ASCII character: the ASCII capitals, U+212A
    (Kelvin sign, to k) and U+0130 (to i, U+0307).  Every other code point
    lowers to non-ASCII code points only; the model keeps it as it is, which a
    comparison with an ASCII literal cannot tell apart. *)
Definition lower_char (c : char) : str :=
  if in_range 65 90 c then [c + 32]%N
  else if char_eqb c 8490%N then [107]%N
  else if char_eqb c 304%N then [105; 775]%N
  else [c].

Definition lower (s : str) : str := flat_map lower_char s.

(** Drop the longest prefix, or suffix, of characters satisfying [p]. *)
Fixpoint lstrip_with (p : char -> bool) (s : str) : str :=
  match s with
  | [] => []
  | c :: r => if p c then lstrip_with p r else s
  end.

Fixpoint rstrip_with (p : char -> bool) (s : str) : str :=
  match s with
  | [] => []
  | c :: r =>
      match rstrip_with p r with
      | [] => if p c then [] else [c]
      | r' => c :: r'
      end
  end.

(** [s.strip()] *)
Definition strip (s : str) : str := lstrip_with isspace_char (rstrip_with isspace_char s).

(** [s.rstrip(chars)] *)
Definition rstrip (chars : str) (s : str) : str :=
  rstrip_with (fun c => existsb (char_eqb c) chars) s.

(** [sep in s], [s.count(sep)] and [s.replace(sep, new)] for a separator of
    one character, which is how the sources call them. *)
Definition contains (sep : char) (s : str) : bool := existsb (char_eqb sep) s.

Definition count (sep : char) (s : str) : nat :=
  List.length (filter (char_eqb sep) s).

Definition replace (sep : char) (new : str) (s : str) : str :=
  flat_map (fun c => if char_eqb sep c then new else [c]) s.

(** [s.split(sep, 1)] for a separator of one character: one piece when the
    separator is absent, else the text before its first occurrence and the
    text after it. *)
Fixpoint split1 (sep : char) (s : str) : list str :=
  match s with
  | [] => [[]]
  | c :: r =>
      if char_eqb sep c then [[]; r]
      else match split1 sep r with
           | k :: rest => (c :: k) :: rest
           | [] => [[c]]
           end
  end.

(** Decimal text of an integer, as [str(n)] and f-strings print it. *)
Definition str_of_int (z : Z) : str := lit (NilZero.string_of_int (Z.to_int z)).

Definition EQUALS : char := 61%N.
Definition DOT : char := 46%N.
Definition SLASH : char := 47%N.

End Py.
Import Py.

(* ================================================================== *)
(** ** Values, responses and exceptions *)

(** A Python [float] read from a decimal literal: [float_mantissa] divided by
    ten to the power [float_frac_digits].  The rounding of that number to a
    binary double is not part of the model. *)
Record pyfloat := { float_mantissa : N; float_frac_digits : nat }.

(** A decoded JSON document; also the dictionaries [ping] builds and
    [json.dumps] prints. *)
#[warnings="-register-all"]
Inductive json :=
| JNull
| JBool (b : bool)
| JInt (z : Z)
| JFloat (f : pyfloat)
| JStr (s : str)
| JList (l : list json)
| JDict (d : list (str * json)).

(** What [Response.json()] has to work with: the document the body holds;
    or the decoder's message when the body is not JSON
    ([json.JSONDecodeError]); or a body the decoder gives up on with another
    exception: an integer of more than [sys.int_max_str_digits] digits (a
    [ValueError]) or nesting too deep for the interpreter's stack (a
    [RecursionError]). *)
Inductive body :=
| Decodes (j : json)
| Undecodable (why : str)
| Overlong (digits : nat)
| TooDeep (why : str).

(** [requests.Response], with the attributes the service and
    [raise_for_status] read. *)
Record Response := {
  status_code : Z;
  headers : list (str * str);
  reason : str;
  url : str;
  content : body
}.

(** The text of a [ValueError]: a message built by the program, or one of the
    interpreter's own for a failed [int] or [float]. *)
Inductive message :=
| Text (s : str)
| InvalidLiteral (fn : string) (arg : str)
| DigitLimit (digits : nat).

(** The exceptions that reach the dispatcher.  [KeyboardInterrupt] and
    [SystemExit] are not subclasses of [Exception]; the other three are.
    [RequestException m r] is [requests.RequestException] or a subclass of
    it, with [str(e) = m] and [e.response = r]. *)
Inductive exn :=
| KeyboardInterrupt
| SystemExit (code : Z)
| ValueError (m : message)
| RequestException (m : str) (response : option Response)
| Exception (m : str).

Definition is_Exception (e : exn) : bool :=
  match e with
  | KeyboardInterrupt | SystemExit _ => false
  | ValueError _ | RequestException _ _ | Exception _ => true
  end.

Inductive result (A : Type) :=
| Ok (a : A)
| Raise (e : exn).
Arguments Ok {A} a.
Arguments Raise {A} e.

Definition rbind {A B} (r : result A) (k : A -> result B) : result B :=
  match r with
  | Ok a => k a
  | Raise e => Raise e
  end.

(** A [dict] with [str] keys, in insertion order.  [d[k] = v] overwrites the
    value of a key already present where it stands and appends a new key. *)
Definition dict (V : Type) := list (str * V).

Fixpoint dict_set {V} (d : dict V) (k : str) (v : V) : dict V :=
  match d with
  | [] => [(k, v)]
  | (k', v') :: r =>
      if str_eqb k' k then (k', v) :: r else (k', v') :: dict_set r k v
  end.

Fixpoint dict_get {V} (d : dict V) (k : str) : option V :=
  match d with
  | [] => None
  | (k', v') :: r => if str_eqb k' k then Some v' else dict_get r k
  end.

(* ================================================================== *)
(** ** The built-ins [int] and [float] *)

(** [sys.int_max_str_digits], at CPython's default. *)
Definition int_max_str_digits : nat := 4300.

Fixpoint decimal_run (s : str) : nat :=
  match s with
  | c :: r => if isdecimal_char c then S (decimal_run r) else 0
  | [] => 0
  end.

(** The number written with the decimal digits of [s]; [None] when some
    character is not a decimal digit. *)
Fixpoint digits_value (acc : N) (s : str) : option N :=
  match s with
  | [] => Some acc
  | c :: r =>
      match decimal_value c with
      | Some d => digits_value (10 * acc + d) r
      | None => None
      end
  end.

(** [int(s)] for the strings [parse_params] passes to it: no sign, no
    blanks, no underscores ([s.isdigit()] held).  A run of more than
    [int_max_str_digits] leading digits is refused first, then any character
    that is not a decimal digit. *)
Definition py_int (s : str) : result Z :=
  if Nat.ltb int_max_str_digits (decimal_run s) then
    Raise (ValueError (DigitLimit (decimal_run s)))
  else
    match s, digits_value 0 s with
    | _ :: _, Some n => Ok (Z.of_N n)
    | _, _ => Raise (ValueError (InvalidLiteral "int" s))
    end.

(** [float(s)] for the strings [parse_params] passes to it: digits around
    exactly one [.]. *)
Definition py_float (s : str) : result pyfloat :=
  match split1 DOT s with
  | [whole; frac] =>
      match whole ++ frac, digits_value 0 (whole ++ frac) with
      | _ :: _, Some n =>
          Ok {| float_mantissa := n; float_frac_digits := List.length frac |}
      | _, _ => Raise (ValueError (InvalidLiteral "float" s))
      end
  | _ => Raise (ValueError (InvalidLiteral "float" s))
  end.

(* ================================================================== *)
(** ** main.py: parameter parsing *)

(** A value of the parsed parameters: [bool], [int], [float] or [str]. *)
Inductive pvalue :=
| PBool (b : bool)
| PInt (z : Z)
| PFloat (f : pyfloat)
| PStr (s : str).

(** Lines 85-92 of [parse_params]: the value stored for the stripped text
    [value]. *)
Definition convert (value : str) : result pvalue :=
  if existsb (str_eqb (lower value)) [lit "true"; lit "false"] then
    Ok (PBool (str_eqb (lower value) (lit "true")))
  else if isdigit value then
    rbind (py_int value) (fun n => Ok (PInt n))
  else if isdigit (replace DOT [] value) && Nat.eqb (count DOT value) 1 then
    rbind (py_float value) (fun f => Ok (PFloat f))
  else
    Ok (PStr value).

(** The body of the [for] loop of [parse_params], from the dictionary built
    so far. *)
Fixpoint parse_loop (params_list : list str) (parsed_params : dict pvalue)
  : result (dict pvalue) :=
  match params_list with
  | [] => Ok parsed_params
  | param :: rest =>
      if negb (contains EQUALS param) then
        Raise (ValueError (Text (lit "Invalid parameter format: " ++ param
                                 ++ lit ". Expected 'key=value'")))
      else
        match split1 EQUALS param with
        | [key; value] =>
            let key := strip key in
            let value := strip value in
            if match key with [] => true | _ => false end then
              Raise (ValueError (Text (lit "Empty key in parameter: " ++ param)))
            else
              rbind (convert value) (fun v =>
                parse_loop rest (dict_set parsed_params key v))
        | _ => Raise (ValueError (Text (lit "not enough values to unpack")))
        end
  end.

Definition parse_params (params_list : list str) : result (dict pvalue) :=
  match params_list with
  | [] => Ok []
  | _ => parse_loop params_list []
  end.

(* ================================================================== *)
(** ** The world around the program *)

(** One call [session.get(url, params=..., timeout=...)]. *)
Record Request := {
  req_url : str;
  req_params : option (dict pvalue);
  req_timeout : Z
}.

(** What the program writes to standard output. *)
Inductive printed :=
| Help                  (* parser.print_help() *)
| HelpRequested         (* the help text argparse prints for -h and --help *)
| Dumps (j : json)      (* print(json.dumps(j, indent=2)) *)
| PingFailed (e : exn)  (* print(json.dumps({"success": False, "error": str(e)}, indent=2)) *)
| GetFailed (e : exn)   (* print(json.dumps({"error": str(e)}, indent=2)) *)
| ParseError (e : exn)  (* print(f"Error: {e}") *)
| Cancelled             (* print("\nOperation cancelled by user") *)
| Unexpected (e : exn). (* print(f"Unexpected error: {e}") *)

Record World := {
  stdout : list printed;   (* lines printed so far, oldest first *)
  sent : list Request;     (* calls of session.get so far, oldest first *)
  closed : nat             (* calls of session.close() so far *)
}.

Definition World0 : World := {| stdout := []; sent := []; closed := 0 |}.

Definition write (p : printed) (w : World) : World :=
  {| stdout := stdout w ++ [p]; sent := sent w; closed := closed w |}.

Definition record_call (rq : Request) (w : World) : World :=
  {| stdout := stdout w; sent := sent w ++ [rq]; closed := closed w |}.

Definition close_session (w : World) : World :=
  {| stdout := stdout w; sent := sent w; closed := S (closed w) |}.

(** [argparse.Namespace] of [create_argument_parser]: [command] is [None]
    without a subcommand, [params] is [None] without [--params]. *)
Record Namespace := {
  command : option str;
  params : option (list str)
}.

(** config.py, [AppSettings]. *)
Record AppSettings := {
  env : str;
  api_base_url : str;
  api_key : option str;
  log_level : str
}.

(** The outcomes of the calls that leave the program: [parser.parse_args()],
    [get_settings()], [setup_logger(level)] and [session.get(...)]. *)
Record Env := {
  parse_args : result Namespace;
  get_settings : result AppSettings;
  setup_logger : str -> result unit;
  session_get : Request -> result Response
}.

(** Computations that print, call the network and may raise. *)
Definition M (A : Type) := World -> result A * World.

Definition ret {A} (a : A) : M A := fun w => (Ok a, w).

Definition raise {A} (e : exn) : M A := fun w => (Raise e, w).

Definition bind {A B} (c : M A) (k : A -> M B) : M B :=
  fun w =>
    match c w with
    | (Ok a, w') => k a w'
    | (Raise e, w') => (Raise e, w')
    end.

Definition lift {A} (r : result A) : M A := fun w => (r, w).

(** [try: c  except ...: h]: [h e] is [None] when no [except] clause matches
    [e], which then propagates. *)
Definition try_except {A} (c : M A) (h : exn -> option (M A)) : M A :=
  fun w =>
    match c w with
    | (Ok a, w') => (Ok a, w')
    | (Raise e, w') =>
        match h e with
        | Some k => k w'
        | None => (Raise e, w')
        end
    end.

Declare Scope py_scope.
Delimit Scope py_scope with py.
Notation "x <- c ;; k" := (bind c (fun x => k))
  (at level 61, c at next level, right associativity) : py_scope.
Notation "c ;;; k" := (bind c (fun _ => k))
  (at level 61, right associativity) : py_scope.
Local Open Scope py_scope.

Definition print (p : printed) : M unit := fun w => (Ok tt, write p w).

(* ================================================================== *)
(** ** requests: the part of the library the service relies on *)

(** [Response.raise_for_status()]: an [HTTPError] carrying the response for a
    status from 400 to 599, nothing otherwise. *)
Definition raise_for_status (r : Response) : result unit :=
  if Z.leb 400 (status_code r) && Z.ltb (status_code r) 500 then
    Raise (RequestException
             (str_of_int (status_code r) ++ lit " Client Error: " ++ reason r
              ++ lit " for url: " ++ url r) (Some r))
  else if Z.leb 500 (status_code r) && Z.ltb (status_code r) 600 then
    Raise (RequestException
             (str_of_int (status_code r) ++ lit " Server Error: " ++ reason r
              ++ lit " for url: " ++ url r) (Some r))
  else Ok tt.

(** [Response.ok], which is also the truth value of a response
    ([Response.__bool__]). *)
Definition ok (r : Response) : bool :=
  match raise_for_status r with
  | Ok _ => true
  | Raise _ => false
  end.

(** [Response.json()]: it turns the decoder's [JSONDecodeError] into
    [requests.exceptions.JSONDecodeError], a [RequestException] (requests
    2.27 and later), and lets every other exception of the decoder pass. *)
Definition Response_json (r : Response) : result json :=
  match content r with
  | Decodes j => Ok j
  | Undecodable why => Raise (RequestException why None)
  | Overlong digits => Raise (ValueError (DigitLimit digits))
  | TooDeep why => Raise (Exception why)
  end.

(** [dict(response.headers)] as a JSON object. *)
Definition headers_dict (h : list (str * str)) : json :=
  JDict (List.map (fun kv => (fst kv, JStr (snd kv))) h).

(** Truth value of a Python object. *)
Definition truthy (j : json) : bool :=
  match j with
  | JNull => false
  | JBool b => b
  | JInt z => negb (Z.eqb z 0)
  | JFloat f => negb (N.eqb (float_mantissa f) 0)
  | JStr s => match s with [] => false | _ => true end
  | JList l => match l with [] => false | _ => true end
  | JDict d => match d with [] => false | _ => true end
  end.

(* ================================================================== *)
(** ** services/example_service.py *)

Record ExampleService := {
  base_url : str;
  timeout : Z;
  session_headers : dict str
}.

Definition DEFAULT_TIMEOUT : Z := 30.

(** [ExampleService.__init__(base_url, timeout)] *)
Definition ExampleService_init (base_url : str) (timeout : Z) : ExampleService :=
  {| base_url := rstrip [SLASH] base_url;
     timeout := timeout;
     session_headers :=
       [ (lit "User-Agent", lit "ExampleService/1.0");
         (lit "Accept", lit "application/json");
         (lit "Content-Type", lit "application/json") ] |}.

(** The URL both operations request: f"{self.base_url}/get". *)
Definition get_url (self : ExampleService) : str := base_url self ++ lit "/get".

(** The world after [parser.parse_args()]: for [-h] and [--help] argparse
    prints the help text on standard output and then leaves with
    [SystemExit(0)]; a usage error is reported on standard error and leaves
    with [SystemExit(2)]; otherwise nothing is printed. *)
Definition after_parse_args (E : Env) (w : World) : World :=
  match parse_args E with
  | Raise (SystemExit code) => if Z.eqb code 0 then write HelpRequested w else w
  | _ => w
  end.

Section Program.

Variable E : Env.

(** [self.session.get(url, params=..., timeout=...)]: the call is recorded,
    the environment decides its outcome. *)
Definition session_get_call (rq : Request) : M Response :=
  fun w => (session_get E rq, record_call rq w).

(** [ExampleService.get_with_params] *)
Definition get_with_params (self : ExampleService) (params : option (dict pvalue))
  : M json :=
  let url := get_url self in
  try_except
    (response <- session_get_call
                   {| req_url := url; req_params := params;
                      req_timeout := timeout self |} ;;
     lift (raise_for_status response) ;;;
     lift (Response_json response))
    (fun e =>
       match e with
       | RequestException m _ =>
           Some (raise (RequestException
                          (lit "GET request to " ++ url ++ lit " failed: " ++ m)
                          None))
       | _ => None
       end).

(** [ExampleService.ping] *)
Definition ping (self : ExampleService) : M json :=
  let url := get_url self in
  try_except
    (response <- session_get_call
                   {| req_url := url; req_params := None;
                      req_timeout := timeout self |} ;;
     lift (raise_for_status response) ;;;
     ret (JDict [ (lit "status", JInt (status_code response));
                  (lit "headers", headers_dict (headers response));
                  (lit "success", JBool true);
                  (lit "message", JStr (lit "Successfully connected to " ++ url)) ]))
    (fun e =>
       match e with
       | RequestException m response =>
           Some (ret (JDict
             [ (lit "status",
                match response with
                | Some r => JInt (status_code r)
                | None => JNull
                end);
               (lit "headers",
                match response with
                | Some r => if ok r then headers_dict (headers r) else JDict []
                | None => JDict []
                end);
               (lit "success", JBool false);
               (lit "message",
                JStr (lit "Connection to " ++ url ++ lit " failed: " ++ m)) ]))
       | _ => None
       end).

(** [ExampleService.close] *)
Definition close : M unit := fun w => (Ok tt, close_session w).

(** [with service: body]: [__exit__] closes the session on every way out and
    lets an exception pass. *)
Definition with_service {A} (service : ExampleService)
  (body : ExampleService -> M A) : M A :=
  fun w =>
    match body service w with
    | (r, w') => (r, snd (close w'))
    end.

(* ================================================================== *)
(** ** main.py: the dispatcher *)

Definition handle_ping_command (service : ExampleService) : M Z :=
  try_except
    (result <- ping service ;;
     print (Dumps result) ;;;
     ret (if truthy (match result with
                     | JDict d =>
                         match dict_get d (lit "success") with
                         | Some v => v
                         | None => JBool false
                         end
                     | _ => JBool false
                     end)
          then 0%Z else 1%Z))
    (fun e =>
       if is_Exception e then Some (print (PingFailed e) ;;; ret 1%Z) else None).

(** [params if params else None] *)
Definition or_None (params : dict pvalue) : option (dict pvalue) :=
  match params with
  | [] => None
  | _ => Some params
  end.

Definition handle_get_command (service : ExampleService) (params : dict pvalue)
  : M Z :=
  try_except
    (result <- get_with_params service (or_None params) ;;
     print (Dumps result) ;;;
     ret 0%Z)
    (fun e =>
       if is_Exception e then Some (print (GetFailed e) ;;; ret 1%Z) else None).

(** [parser.parse_args()] *)
Definition parse_args_call : M Namespace :=
  fun w => (parse_args E, after_parse_args E w).

(** [args.params or []] *)
Definition or_empty (params : option (list str)) : list str :=
  match params with
  | Some l => l
  | None => []
  end.

(** The body of the [try] of [main].  [get_logger()] finds the handlers
    [setup_logger] has just installed and only returns the logger. *)
Definition main_body : M Z :=
  args <- parse_args_call ;;
  settings <- lift (get_settings E) ;;
  lift (setup_logger E (log_level settings)) ;;;
  if match command args with
     | None => true
     | Some [] => true
     | Some _ => false
     end
  then print Help ;;; ret 1%Z
  else
    with_service (ExampleService_init (api_base_url settings) DEFAULT_TIMEOUT)
      (fun service =>
         if match command args with
            | Some c => str_eqb c (lit "ping")
            | None => false
            end
         then handle_ping_command service
         else if match command args with
                 | Some c => str_eqb c (lit "get")
                 | None => false
                 end
         then
           try_except
             (params <- lift (parse_params (or_empty (params args))) ;;
              handle_get_command service params)
             (fun e =>
                match e with
                | ValueError _ => Some (print (ParseError e) ;;; ret 1%Z)
                | _ => None
                end)
         else print Help ;;; ret 1%Z).

Definition main : M Z :=
  try_except main_body
    (fun e =>
       match e with
       | KeyboardInterrupt => Some (print Cancelled ;;; ret 130%Z)
       | SystemExit _ => None
       | _ => Some (print (Unexpected e) ;;; ret 1%Z)
       end).

End Program.

(* ================================================================== *)
(** ** Vocabulary of the specification *)

(** The request [ping] hands to the session. *)
Definition ping_request (self : ExampleService) : Request :=
  {| req_url := get_url self; req_params := None; req_timeout := timeout self |}.

(** The request [get_with_params] hands to the session. *)
Definition get_request (self : ExampleService) (params : option (dict pvalue))
  : Request :=
  {| req_url := get_url self; req_params := params; req_timeout := timeout self |}.

(** The result envelope of [ping]. *)
Definition envelope (status headers : json) (success : bool) (message : str) : json :=
  JDict [ (lit "status", status); (lit "headers", headers);
          (lit "success", JBool success); (lit "message", JStr message) ].

(** The text of the [HTTPError] that [raise_for_status] raises. *)
Definition http_error_msg (r : Response) : str :=
  str_of_int (status_code r)
  ++ (if Z.ltb (status_code r) 500 then lit " Client Error: " else lit " Server Error: ")
  ++ reason r ++ lit " for url: " ++ url r.

(** [needle] occurs in [hay]. *)
Definition occurs_in (needle hay : str) : Prop :=
  exists before after, hay = before ++ needle ++ after.

(** A plain response, for examples. *)
Definition response (status : Z) (hs : list (str * str)) (b : body) : Response :=
  {| status_code := status; headers := hs; reason := lit "";
     url := lit "https://httpbin.org/get"; content := b |}.

(** An environment in which every request gets the same outcome. *)
Definition env_with (args : Namespace) (net : result Response) : Env :=
  {| parse_args := Ok args;
     get_settings := Ok {| env := lit "dev"; api_base_url := lit "https://httpbin.org";
                           api_key := None; log_level := lit "INFO" |};
     setup_logger := fun _ => Ok tt;
     session_get := fun _ => net |}.

Definition httpbin : ExampleService :=
  ExampleService_init (lit "https://httpbin.org") DEFAULT_TIMEOUT.

(** The success flag [handle_ping_command] reads off the document it is
    about to print. *)
Definition success_flag (p : printed) : bool :=
  match p with
  | Dumps (JDict d) =>
      match dict_get d (lit "success") with
      | Some v => truthy v
      | None => false
      end
  | PingFailed _ => false   (* the document {"success": False, "error": ...} *)
  | _ => false
  end.

(** The start-up calls of [main] returned. *)
Definition started (E : Env) (args : Namespace) (st : AppSettings) : Prop :=
  parse_args E = Ok args
  /\ get_settings E = Ok st
  /\ setup_logger E (log_level st) = Ok tt.

(** The wrapper [main] builds from the settings. *)
Definition service_of (st : AppSettings) : ExampleService :=
  ExampleService_init (api_base_url st) DEFAULT_TIMEOUT.

(** One of the start-up calls raises [e]. *)
Definition startup_raises (E : Env) (e : exn) : Prop :=
  parse_args E = Raise e
  \/ (exists args, parse_args E = Ok args /\ get_settings E = Raise e)
  \/ (exists args st,
         parse_args E = Ok args /\ get_settings E = Ok st
         /\ setup_logger E (log_level st) = Raise e).

(** [isdigit] accepts the superscript two, [int] does not: a token the
    program takes for an integer makes [parse_params] raise. *)
Definition SUPERSCRIPT_TWO : char := 178%N.

(** The text of a token before its first [=], and the text after it. *)
Fixpoint before (sep : char) (s : str) : str :=
  match s with
  | [] => []
  | c :: r => if char_eqb sep c then [] else c :: before sep r
  end.

Fixpoint after (sep : char) (s : str) : str :=
  match s with
  | [] => []
  | c :: r => if char_eqb sep c then r else after sep r
  end.

Definition is_empty (s : str) : bool :=
  match s with
  | [] => true
  | _ => false
  end.

(** A token with no [=], or with a key that is empty once blanks are
    stripped (["=v"], ["  =v"]). *)
Definition malformed (token : str) : bool :=
  negb (contains EQUALS token) || is_empty (strip (before EQUALS token)).

(** The conversion order of the specification, for a value already
    stripped: a boolean when the value is [true] or [false] in any mix of
    cases, else an integer when it is all digits [0] to [9], else a float when
    it has exactly one [.] and is all digits without it, else the text
    itself. *)
Definition ascii_digit (c : char) : bool := in_range 48 57 c.

Definition all_digits (s : str) : bool :=
  negb (is_empty s) && forallb ascii_digit s.

Definition is_ascii (s : str) : bool := forallb (fun c => N.ltb c 128) s.

Definition decimal_number (s : str) : N :=
  fold_left (fun n c => (10 * n + (c - 48))%N) s 0%N.

Definition coerce (value : str) : pvalue :=
  if str_eqb (lower value) (lit "true") then PBool true
  else if str_eqb (lower value) (lit "false") then PBool false
  else if all_digits value then PInt (Z.of_N (decimal_number value))
  else if Nat.eqb (count DOT value) 1 && all_digits (replace DOT [] value) then
    PFloat {| float_mantissa := decimal_number (replace DOT [] value);
              float_frac_digits := List.length (after DOT value) |}
  else PStr value.

(** The key and the value [parse_params] reads off a token that has an
    [=]: the stripped text before the first [=] and the stripped text after
    it. *)
Definition key_of (token : str) : str := strip (before EQUALS token).

Definition value_of (token : str) : str := strip (after EQUALS token).

(** Keys in the order in which they first occur. *)
Definition add_key (seen : list str) (k : str) : list str :=
  if existsb (fun k' => str_eqb k' k) seen then seen else seen ++ [k].

Definition first_occurrences (ks : list str) : list str := fold_left add_key ks [].

Definition is_RequestException (e : exn) : bool :=
  match e with
  | RequestException _ _ => true
  | _ => false
  end.

(** The statuses [raise_for_status] rejects. *)
Definition error_status (r : Response) : bool :=
  Z.leb 400 (status_code r) && Z.ltb (status_code r) 600.

(** No blank at either end. *)
Definition trimmed (s : str) : Prop :=
  (forall c t, s = c :: t -> isspace_char c = false)
  /\ (forall t c, s = t ++ [c] -> isspace_char c = false).

(** Every digit of [s] is a decimal digit. *)
Definition digits_are_decimal (s : str) : bool :=
  forallb (fun c => implb (isdigit_char c) (isdecimal_char c)) s.

(** Whether [main] gets as far as building the wrapper: the start-up
    calls return and a subcommand is given. *)
Definition dispatches (E : Env) : bool :=
  match parse_args E with
  | Ok args =>
      match get_settings E with
      | Ok st =>
          match setup_logger E (log_level st) with
          | Ok _ =>
              match command args with
              | Some (_ :: _) => true
              | _ => false
              end
          | Raise _ => false
          end
      | Raise _ => false
      end
  | Raise _ => false
  end.

(** The two [except] clauses at the end of [main], applied to the outcome of
    its body. *)
Definition top_level (o : result Z * World) : result Z * World :=
  match o with
  | (Ok code, w) => (Ok code, w)
  | (Raise KeyboardInterrupt, w) => (Ok 130%Z, write Cancelled w)
  | (Raise (SystemExit c), w) => (Raise (SystemExit c), w)
  | (Raise e, w) => (Ok 1%Z, write (Unexpected e) w)
  end.

(** A token with its key and its value stripped: what [parse_params] makes
    of the token, written back as a token. *)
Definition stripped_token (t : str) : str :=
  if contains EQUALS t then key_of t ++ EQUALS :: value_of t else t.

(** What a call returned, whatever it raised otherwise. *)
Definition returned {A} (r : result A) : option A :=
  match r with
  | Ok a => Some a
  | Raise _ => None
  end.

(* ================================================================== *)
(** ** logging.py *)

Module Logging.

(** Where a handler writes: [sys.stderr], or a file. *)
Inductive Sink :=
| Stderr
| LogFile (path : str).

(** A handler of the loguru logger, with the level it was added at. *)
Record Handler := {
  sink : Sink;
  level : str
}.

(** [logger._core.handlers], in the order in which the handlers were added.
    The module starts from none: line 15 removes loguru's default handler. *)
Definition Handlers := list Handler.

(** What the calls that leave the module do: [logs_dir.mkdir(exist_ok=True)]
    and [logger.add(sink, level=...)], which adds the handler or raises (an
    unknown level, a file that cannot be opened). *)
Record Outside := {
  mkdir_logs : result unit;
  add_handler : Sink -> str -> result unit
}.

Section Logger.

(** [str.upper], as a parameter. *)
Variable upper : str -> str.
Variable O : Outside.

(** The two handlers of [setup_logger]. *)
Definition console (lvl : str) : Handler :=
  {| sink := Stderr; level := upper lvl |}.

Definition logfile (lvl : str) : Handler :=
  {| sink := LogFile (lit "logs/app.log"); level := upper lvl |}.

(** [logger.add(s, level=lvl, ...)] *)
Definition logger_add (s : Sink) (lvl : str) (h : Handlers) : result unit * Handlers :=
  match add_handler O s lvl with
  | Ok _ => (Ok tt, h ++ [ {| sink := s; level := lvl |} ])
  | Raise e => (Raise e, h)
  end.

(** [setup_logger(level)]; the closing [logger.info] goes to the handlers
    and changes none of them. *)
Definition setup_logger (lvl : str) (h : Handlers) : result unit * Handlers :=
  match mkdir_logs O with
  | Raise e => (Raise e, h)
  | Ok _ =>
      match logger_add Stderr (upper lvl) h with
      | (Raise e, h1) => (Raise e, h1)
      | (Ok _, h1) =>
          match logger_add (LogFile (lit "logs/app.log")) (upper lvl) h1 with
          | (Raise e, h2) => (Raise e, h2)
          | (Ok _, h2) => (Ok tt, h2)
          end
      end
  end.

(** [get_logger()], given what [from .config import settings] yields:
    [None] stands for the [ImportError]. *)
Definition get_logger_importing (settings : option AppSettings) (h : Handlers)
  : result unit * Handlers :=
  match settings with
  | Some st =>
      match h with
      | [] => setup_logger (log_level st) h
      | _ => (Ok tt, h)
      end
  | None =>
      match h with
      | [] => setup_logger (lit "INFO") h
      | _ => (Ok tt, h)
      end
  end.

(** config.py binds [AppSettings] and [get_settings] and no name [settings]:
    the import of line 64 raises [ImportError]. *)
Definition config_settings : option AppSettings := None.

Definition get_logger (h : Handlers) : result unit * Handlers :=
  get_logger_importing config_settings h.

End Logger.

(** An outside in which the directory is made and the handlers whose sink
    satisfies [accepts] are added, for examples. *)
Definition outside_adding (accepts : Sink -> bool) : Outside :=
  {| mkdir_logs := Ok tt;
     add_handler := fun s _ =>
       if accepts s then Ok tt else Raise (Exception (lit "Permission denied")) |}.

End Logging.

(* ================================================================== *)
(** ** config.py *)

Module Config.

(** The cache [lru_cache] keeps for [get_settings], and the number of times
    [AppSettings()] has been run. *)
Record Cache := {
  cached : option AppSettings;
  constructions : nat
}.

Section Settings.

(** The outcome of the [n]-th run of [AppSettings()]: the settings read from
    the environment and the [.env] file, or a validation error. *)
Variable construct : nat -> result AppSettings.

(** [get_settings()]: a hit returns the cached object; a miss runs the body
    and caches what it returns, and caches nothing when it raises. *)
Definition get_settings (c : Cache) : result AppSettings * Cache :=
  match cached c with
  | Some st => (Ok st, c)
  | None =>
      match construct (constructions c) with
      | Ok st => (Ok st, {| cached := Some st; constructions := S (constructions c) |})
      | Raise e => (Raise e, {| cached := None; constructions := S (constructions c) |})
      end
  end.

(** The cache after [n] further calls. *)
Fixpoint after_calls (n : nat) (c : Cache) : Cache :=
  match n with
  | 0 => c
  | S n' => after_calls n' (snd (get_settings c))
  end.

End Settings.

End Config.

(* ================================================================== *)
(** ** Strings *)

Lemma rstrip_with_last p s :
  forall t c, rstrip_with p s = t ++ [c] -> p c = false.
Proof.
  induction s as [|a r IH]; intros t c H; simpl in H.
  - destruct t; discriminate.
  - destruct (rstrip_with p r) as [|x r'] eqn:Hr.
    + destruct (p a) eqn:Hp.
      * destruct t; discriminate.
      * destruct t as [|y t]; simpl in H.
        -- injection H as <-. exact Hp.
        -- injection H as _ H. destruct t; discriminate.
    + destruct t as [|y t]; simpl in H.
      * discriminate.
      * injection H as _ H. apply (IH t c). exact H.
Qed.

Lemma rstrip_with_suffix p s :
  exists t, s = rstrip_with p s ++ t /\ forallb p t = true.
Proof.
  induction s as [|a r [t [Hr Ht]]]; simpl.
  - exists []. split; reflexivity.
  - destruct (rstrip_with p r) as [|x r'] eqn:Hs.
    + destruct (p a) eqn:Hp.
      * exists (a :: t). simpl in *. subst r. rewrite Hp, Ht. split; reflexivity.
      * exists t. simpl in *. subst r. split; [reflexivity | exact Ht].
    + exists t. split; [| exact Ht]. simpl. f_equal. exact Hr.
Qed.

Lemma slash_only c : existsb (char_eqb c) [SLASH] = true -> c = SLASH.
Proof.
  simpl. rewrite orb_false_r. unfold char_eqb. intros H.
  apply N.eqb_eq. exact H.
Qed.

(* ================================================================== *)
(** ** The client wrapper *)

#[local] Arguments lit : simpl never.
#[local] Arguments str_eqb : simpl never.
#[local] Arguments get_url : simpl never.
#[local] Arguments ExampleService_init : simpl never.
#[local] Arguments parse_params : simpl never.

Ltac run :=
  unfold ping, get_with_params, handle_ping_command, handle_get_command,
    with_service, close, try_except, bind, session_get_call, lift, ret, raise,
    print, ping_request, get_request in *;
  simpl in *.

Lemma raise_for_status_error r :
  (400 <= status_code r < 600)%Z ->
  raise_for_status r = Raise (RequestException (http_error_msg r) (Some r)).
Proof.
  intros [Hlo Hhi]. unfold raise_for_status, http_error_msg.
  apply Z.leb_le in Hlo. rewrite Hlo. simpl.
  destruct (Z.ltb (status_code r) 500) eqn:H5; [reflexivity |].
  apply Z.ltb_ge, Z.leb_le in H5. rewrite H5.
  apply Z.ltb_lt in Hhi. rewrite Hhi. reflexivity.
Qed.

Lemma raise_for_status_pass r :
  (status_code r < 400 \/ 600 <= status_code r)%Z ->
  raise_for_status r = Ok tt.
Proof.
  intros H. unfold raise_for_status.
  destruct (Z.leb 400 (status_code r)) eqn:H4; simpl.
  - apply Z.leb_le in H4.
    destruct (Z.ltb (status_code r) 500) eqn:H5; simpl.
    + apply Z.ltb_lt in H5. lia.
    + destruct (Z.leb 500 (status_code r)) eqn:H5'; simpl; [| reflexivity].
      destruct (Z.ltb (status_code r) 600) eqn:H6; [| reflexivity].
      apply Z.ltb_lt in H6. lia.
  - destruct (Z.leb 500 (status_code r)) eqn:H5; simpl; [| reflexivity].
    apply Z.leb_le in H5. apply Z.leb_gt in H4. lia.
Qed.

(** C6. The constructor strips the trailing slash of ["https://x/"]; the
    stored base URL never ends with a slash and differs from the argument
    only by the slashes dropped at its end; [ping] and [get_with_params]
    each issue one request, to the stored base URL followed by ["/get"]. *)
Theorem base_url_normalised :
  (forall t, base_url (ExampleService_init (lit "https://x/") t) = lit "https://x")
  /\ (forall b t p, base_url (ExampleService_init b t) <> p ++ [SLASH])
  /\ (forall b t, exists slashes,
         b = base_url (ExampleService_init b t) ++ slashes
         /\ Forall (eq SLASH) slashes)
  /\ (forall E self w,
         sent (snd (ping E self w))
         = sent w ++ [ {| req_url := base_url self ++ lit "/get";
                          req_params := None;
                          req_timeout := timeout self |} ])
  /\ (forall E self params w,
         sent (snd (get_with_params E self params w))
         = sent w ++ [ {| req_url := base_url self ++ lit "/get";
                          req_params := params;
                          req_timeout := timeout self |} ]).
Proof.
  split; [| split; [| split; [| split]]].
  - intros t. reflexivity.
  - intros b t p H. unfold ExampleService_init in H. simpl in H. unfold rstrip in H.
    apply rstrip_with_last in H. vm_compute in H. discriminate.
  - intros b t. unfold ExampleService_init. simpl. unfold rstrip.
    destruct (rstrip_with_suffix (fun c => existsb (char_eqb c) [SLASH]) b)
      as [tl [Hb Htl]].
    exists tl. split; [exact Hb |].
    apply Forall_forall. intros c Hc.
    rewrite forallb_forall in Htl. symmetry. apply slash_only, Htl, Hc.
  - intros E self w. unfold get_url. run.
    destruct (session_get E _) as [r | e]; simpl.
    + destruct (raise_for_status r) as [[] | e]; simpl; [reflexivity |].
      destruct e; reflexivity.
    + destruct e; reflexivity.
  - intros E self params w. unfold get_url. run.
    destruct (session_get E _) as [r | e]; simpl.
    + destruct (raise_for_status r) as [[] | e]; simpl.
      * destruct (Response_json r) as [j | e]; simpl; [reflexivity |].
        destruct e; reflexivity.
      * destruct e; reflexivity.
    + destruct e; reflexivity.
Qed.

(** C8, the claim as stated fails: the constructor stores a timeout of 0 (or
    a negative one) as it is given. *)
Lemma timeout_not_always_positive :
  ~ (forall b t, (0 < timeout (ExampleService_init b t))%Z).
Proof.
  intros H. specialize (H (lit "https://x") 0%Z). simpl in H. lia.
Qed.

(* ================================================================== *)
(** ** What the operations do to the world, and what they return *)

Lemma ping_world E self w :
  snd (ping E self w) = record_call (ping_request self) w.
Proof.
  run. destruct (session_get E _) as [r | e]; simpl.
  - destruct (raise_for_status r) as [[] | e]; simpl; [reflexivity |].
    destruct e; reflexivity.
  - destruct e; reflexivity.
Qed.

Lemma get_with_params_world E self params w :
  snd (get_with_params E self params w) = record_call (get_request self params) w.
Proof.
  run. destruct (session_get E _) as [r | e]; simpl.
  - destruct (raise_for_status r) as [[] | e]; simpl.
    + destruct (Response_json r) as [j | e]; simpl; [reflexivity |].
      destruct e; reflexivity.
    + destruct e; reflexivity.
  - destruct e; reflexivity.
Qed.

Lemma result_world {A} (c : M A) w : c w = (fst (c w), snd (c w)).
Proof. destruct (c w); reflexivity. Qed.

(** [ping] raises only what the session raised, and never a
    [RequestException]. *)
Lemma ping_raises E self w e :
  fst (ping E self w) = Raise e ->
  session_get E (ping_request self) = Raise e
  /\ (forall m r, e <> RequestException m r).
Proof.
  run. destruct (session_get E _) as [r | e0]; simpl.
  - destruct (raise_for_status r) as [[] | e1] eqn:Hs; simpl; [discriminate |].
    unfold raise_for_status in Hs.
    destruct (_ && _) in Hs; [injection Hs as <-; discriminate |].
    destruct (_ && _) in Hs; [injection Hs as <-; discriminate | discriminate].
  - destruct e0; simpl; intros H; try discriminate;
      injection H as <-; (split; [reflexivity | intros; discriminate]).
Qed.

Lemma handle_ping_command_run E s w :
  (exists p code,
      handle_ping_command E s w
      = (Ok code, write p (record_call (ping_request s) w))
      /\ (code = if success_flag p then 0%Z else 1%Z)
      /\ (exists j, p = Dumps j \/ exists e, p = PingFailed e))
  \/ (exists e,
        is_Exception e = false
        /\ session_get E (ping_request s) = Raise e
        /\ handle_ping_command E s w = (Raise e, record_call (ping_request s) w)).
Proof.
  unfold handle_ping_command, try_except, bind.
  rewrite (result_world (ping E s) w), ping_world.
  destruct (fst (ping E s w)) as [j | e] eqn:Hp.
  - left. exists (Dumps j). eexists. unfold print, ret. simpl.
    split; [reflexivity | split].
    + destruct j; try reflexivity. destruct (dict_get d (lit "success")); reflexivity.
    + exists j. left. reflexivity.
  - apply ping_raises in Hp. destruct Hp as [Hs _].
    destruct (is_Exception e) eqn:He.
    + left. exists (PingFailed e), 1%Z. unfold print, ret. simpl.
      split; [reflexivity | split; [reflexivity |]].
      exists JNull. right. exists e. reflexivity.
    + right. exists e. split; [exact He | split; [exact Hs | reflexivity]].
Qed.

Lemma handle_get_command_run E s params w :
  let w1 := record_call (get_request s (or_None params)) w in
  match fst (get_with_params E s (or_None params) w) with
  | Ok j => handle_get_command E s params w = (Ok 0%Z, write (Dumps j) w1)
  | Raise e =>
      if is_Exception e
      then handle_get_command E s params w = (Ok 1%Z, write (GetFailed e) w1)
      else handle_get_command E s params w = (Raise e, w1)
  end.
Proof.
  intros w1. subst w1.
  pose proof (get_with_params_world E s (or_None params) w) as Hw.
  unfold handle_get_command, try_except, bind, print, ret.
  destruct (get_with_params E s (or_None params) w) as [r w'].
  simpl in *. subst w'.
  destruct r as [j | e]; [reflexivity |].
  destruct (is_Exception e); reflexivity.
Qed.

(* ================================================================== *)
(** ** Parameter parsing raises nothing but [ValueError] *)

Lemma py_int_raises s e :
  py_int s = Raise e -> exists m, e = ValueError m.
Proof.
  unfold py_int. destruct (Nat.ltb _ _).
  - intros H. injection H as <-. eexists. reflexivity.
  - destruct s as [|c s]; [| destruct (digits_value 0 (c :: s))];
      intros H; try discriminate; injection H as <-; eexists; reflexivity.
Qed.

Lemma py_float_raises s e :
  py_float s = Raise e -> exists m, e = ValueError m.
Proof.
  unfold py_float.
  destruct (split1 DOT s) as [|whole [|frac [|x tl]]];
    try (intros H; injection H as <-; eexists; reflexivity).
  destruct (whole ++ frac) as [|c t]; [| destruct (digits_value 0 (c :: t))];
    intros H; try discriminate; injection H as <-; eexists; reflexivity.
Qed.

Lemma convert_raises value e :
  convert value = Raise e -> exists m, e = ValueError m.
Proof.
  unfold convert.
  destruct (existsb _ _); [discriminate |].
  destruct (isdigit value).
  { destruct (py_int value) eqn:Hi; simpl; intros H; [discriminate |].
    injection H as <-. apply (py_int_raises _ _ Hi). }
  destruct (_ && _); [| discriminate].
  destruct (py_float value) eqn:Hf; simpl; intros H; [discriminate |].
  injection H as <-. apply (py_float_raises _ _ Hf).
Qed.

Lemma parse_loop_raises l : forall acc e,
  parse_loop l acc = Raise e -> exists m, e = ValueError m.
Proof.
  induction l as [|param rest IH]; intros acc e H; simpl in H.
  - discriminate.
  - destruct (negb (contains EQUALS param)).
    { injection H as <-. eexists. reflexivity. }
    destruct (split1 EQUALS param) as [|key [|value [|x tl]]];
      try (injection H as <-; eexists; reflexivity).
    destruct (strip key).
    { injection H as <-. eexists. reflexivity. }
    destruct (convert (strip value)) as [v | e'] eqn:Hc; simpl in H.
    + apply (IH _ _ H).
    + injection H as <-. apply (convert_raises _ _ Hc).
Qed.

Lemma parse_params_raises l e :
  parse_params l = Raise e -> exists m, e = ValueError m.
Proof.
  unfold parse_params. destruct l; [discriminate | apply parse_loop_raises].
Qed.

(* ================================================================== *)
(** ** The dispatcher, once the start-up calls have returned *)

Lemma main_body_no_command E w args st :
  started E args st ->
  command args = None \/ command args = Some [] ->
  main_body E w = (Ok 1%Z, write Help w).
Proof.
  intros (Ha & Hs & Hl) Hc. unfold main_body, bind, lift, parse_args_call, after_parse_args.
  rewrite Ha, Hs. simpl. rewrite Hl.
  destruct Hc as [-> | ->]; reflexivity.
Qed.

Lemma main_body_ping E w args st :
  started E args st ->
  command args = Some (lit "ping") ->
  main_body E w
  = (fst (handle_ping_command E (service_of st) w),
     close_session (snd (handle_ping_command E (service_of st) w))).
Proof.
  intros (Ha & Hs & Hl) Hc.
  unfold main_body, bind, lift, with_service, parse_args_call, after_parse_args.
  rewrite Ha, Hs. simpl. rewrite Hl, Hc.
  change (str_eqb (lit "ping") (lit "ping")) with true.
  change (match lit "ping" with [] => true | _ => false end) with false.
  cbv beta iota. fold (service_of st).
  destruct (handle_ping_command E (service_of st) w). reflexivity.
Qed.

Lemma main_body_get E w args st :
  started E args st ->
  command args = Some (lit "get") ->
  main_body E w
  = match parse_params (or_empty (params args)) with
    | Ok ps =>
        (fst (handle_get_command E (service_of st) ps w),
         close_session (snd (handle_get_command E (service_of st) ps w)))
    | Raise e => (Ok 1%Z, close_session (write (ParseError e) w))
    end.
Proof.
  intros (Ha & Hs & Hl) Hc.
  unfold main_body, bind, lift, with_service, try_except, parse_args_call,
    after_parse_args.
  rewrite Ha, Hs. simpl. rewrite Hl, Hc.
  change (str_eqb (lit "get") (lit "ping")) with false.
  change (str_eqb (lit "get") (lit "get")) with true.
  change (match lit "get" with [] => true | _ => false end) with false.
  cbv beta iota. fold (service_of st).
  destruct (parse_params (or_empty (params args))) as [ps | e] eqn:Hp.
  - pose proof (handle_get_command_run E (service_of st) ps w) as Hr.
    simpl in Hr.
    destruct (fst (get_with_params E (service_of st) (or_None ps) w)) as [j | e].
    + rewrite Hr. reflexivity.
    + destruct (is_Exception e) eqn:He; rewrite Hr; [reflexivity |].
      destruct e; try discriminate; reflexivity.
  - destruct (parse_params_raises _ _ Hp) as [m ->]. reflexivity.
Qed.

(* ================================================================== *)
(** ** ping *)

Lemma occurs_in_middle a x b : occurs_in x (a ++ x ++ b).
Proof. exists a, b. reflexivity. Qed.

Lemma occurs_in_end a x : occurs_in x (a ++ x).
Proof. exists a, []. rewrite app_nil_r. reflexivity. Qed.

Lemma ping_on_2xx E self w r :
  session_get E (ping_request self) = Ok r ->
  (200 <= status_code r < 300)%Z ->
  fst (ping E self w)
  = Ok (envelope (JInt (status_code r)) (headers_dict (headers r)) true
          (lit "Successfully connected to " ++ get_url self)).
Proof.
  intros Hget Hst. run. rewrite Hget. simpl.
  rewrite raise_for_status_pass by lia. reflexivity.
Qed.

(** C4. On a response with a 2xx status, [ping] returns the envelope with
    the status code and the headers of the response, [success] true and the
    message "Successfully connected to <url>". *)
Theorem ping_success E self w r :
  session_get E (ping_request self) = Ok r ->
  (200 <= status_code r < 300)%Z ->
  fst (ping E self w)
  = Ok (envelope (JInt (status_code r)) (headers_dict (headers r)) true
          (lit "Successfully connected to " ++ get_url self)).
Proof.
  intros Hget Hst. run. rewrite Hget. simpl.
  rewrite raise_for_status_pass by lia. reflexivity.
Qed.

Lemma ping_success_witness :
  fst (ping (env_with {| command := None; params := None |}
               (Ok (response 200 [(lit "Content-Type", lit "application/json")]
                      (Decodes JNull))))
         httpbin World0)
  = Ok (envelope (JInt 200)
          (JDict [(lit "Content-Type", JStr (lit "application/json"))]) true
          (lit "Successfully connected to https://httpbin.org/get")).
Proof.
  apply (@ping_success
           (env_with {| command := None; params := None |}
              (Ok (response 200 [(lit "Content-Type", lit "application/json")]
                     (Decodes JNull))))
           httpbin World0
           (response 200 [(lit "Content-Type", lit "application/json")]
              (Decodes JNull))).
  - reflexivity.
  - simpl. lia.
Defined.

(** C10. Two 2xx responses with the same status code and the same headers
    make [ping] return the same envelope, with [success] true, whatever their
    bodies (and reason phrases and URLs) are. *)
Theorem ping_ignores_body E1 E2 self w r1 r2 :
  session_get E1 (ping_request self) = Ok r1 ->
  session_get E2 (ping_request self) = Ok r2 ->
  (200 <= status_code r1 < 300)%Z ->
  status_code r1 = status_code r2 ->
  headers r1 = headers r2 ->
  ping E1 self w = ping E2 self w
  /\ exists d, fst (ping E1 self w) = Ok (JDict d)
               /\ dict_get d (lit "success") = Some (JBool true).
Proof.
  intros H1 H2 Hst Hcode Hhdr. split.
  - rewrite (result_world (ping E1 self) w), (result_world (ping E2 self) w).
    rewrite !ping_world.
    rewrite (ping_on_2xx E1 self w r1 H1 Hst).
    rewrite (ping_on_2xx E2 self w r2 H2) by (rewrite <- Hcode; exact Hst).
    rewrite Hcode, Hhdr. reflexivity.
  - rewrite (ping_on_2xx E1 self w r1 H1 Hst). eexists. split; reflexivity.
Qed.

Lemma ping_ignores_body_witness :
  let E1 := env_with {| command := None; params := None |}
              (Ok (response 200 [] (Decodes (JDict [(lit "k", JInt 1)])))) in
  let E2 := env_with {| command := None; params := None |}
              (Ok (response 200 [] (Undecodable (lit "Expecting value")))) in
  ping E1 httpbin World0 = ping E2 httpbin World0
  /\ exists d, fst (ping E1 httpbin World0) = Ok (JDict d)
               /\ dict_get d (lit "success") = Some (JBool true).
Proof.
  apply (@ping_ignores_body
           (env_with {| command := None; params := None |}
              (Ok (response 200 [] (Decodes (JDict [(lit "k", JInt 1)])))))
           (env_with {| command := None; params := None |}
              (Ok (response 200 [] (Undecodable (lit "Expecting value")))))
           httpbin World0
           (response 200 [] (Decodes (JDict [(lit "k", JInt 1)])))
           (response 200 [] (Undecodable (lit "Expecting value"))));
    try reflexivity.
  simpl. lia.
Defined.




(** X12. The headers of a response with status 400 to 599 do not reach the
    envelope: such a response is false as a truth value, and line 83 of
    example_service.py tests [e.response] for truth. *)
Lemma ping_error_status_drops_headers E self w r :
  session_get E (ping_request self) = Ok r ->
  (400 <= status_code r < 600)%Z ->
  fst (ping E self w)
  = Ok (envelope (JInt (status_code r)) (JDict []) false
          (lit "Connection to " ++ get_url self ++ lit " failed: "
           ++ http_error_msg r)).
Proof.
  intros Hget Hst. run. rewrite Hget. simpl.
  rewrite (raise_for_status_error r Hst). simpl.
  unfold ok. rewrite (raise_for_status_error r Hst). reflexivity.
Qed.

(* ================================================================== *)
(** ** get_with_params *)

(** C2, the claim as stated fails: a response with status 300 is not 2xx,
    yet [raise_for_status] lets it pass and [get_with_params] returns its
    decoded body instead of raising. *)
Lemma get_with_params_300_returns :
  let r := response 300 [] (Decodes (JDict [(lit "k", JStr (lit "v"))])) in
  ~ (200 <= status_code r < 300)%Z
  /\ fst (get_with_params (env_with {| command := None; params := None |} (Ok r))
            httpbin (Some [(lit "k", PStr (lit "v"))]) World0)
     = Ok (JDict [(lit "k", JStr (lit "v"))]).
Proof.
  split; [simpl; lia | reflexivity].
Qed.

(** C2, amended. On a 2xx response whose body decodes, [get_with_params]
    returns the decoded document unchanged.  When the request raises a
    [RequestException] (a transport failure) or the response has a status from
    400 to 599, it raises a [RequestException] with the message
    "GET request to <url> failed: <cause>", in which both the target URL and
    the cause occur; it returns no value then. *)
Theorem get_with_params_contract E self params w :
  (forall r j,
      session_get E (get_request self params) = Ok r ->
      (200 <= status_code r < 300)%Z ->
      content r = Decodes j ->
      fst (get_with_params E self params w) = Ok j)
  /\ (forall cause,
         (exists resp,
             session_get E (get_request self params)
             = Raise (RequestException cause resp))
         \/ (exists r,
                session_get E (get_request self params) = Ok r
                /\ (400 <= status_code r < 600)%Z
                /\ cause = http_error_msg r) ->
         exists msg,
           fst (get_with_params E self params w) = Raise (RequestException msg None)
           /\ msg = lit "GET request to " ++ get_url self ++ lit " failed: " ++ cause
           /\ occurs_in (get_url self) msg
           /\ occurs_in cause msg).
Proof.
  split.
  - intros r j Hget Hst Hbody. run. rewrite Hget. simpl.
    rewrite raise_for_status_pass by lia. simpl.
    unfold Response_json. rewrite Hbody. reflexivity.
  - intros cause H. eexists. split; [| split; [reflexivity | split]].
    + destruct H as [[resp Hget] | [r (Hget & Hst & ->)]]; run; rewrite Hget; simpl.
      * reflexivity.
      * rewrite (raise_for_status_error r Hst). reflexivity.
    + apply occurs_in_middle.
    + rewrite !app_assoc. apply occurs_in_end.
Qed.

Lemma get_with_params_contract_witness :
  fst (get_with_params
         (env_with {| command := None; params := None |}
            (Ok (response 200 [] (Decodes (JDict [(lit "k", JStr (lit "v"))])))))
         httpbin (Some [(lit "k", PStr (lit "v"))]) World0)
  = Ok (JDict [(lit "k", JStr (lit "v"))])
  /\ exists msg,
       fst (get_with_params
              (env_with {| command := None; params := None |}
                 (Raise (RequestException (lit "Connection error") None)))
              httpbin (Some [(lit "test", PStr (lit "value"))]) World0)
       = Raise (RequestException msg None)
       /\ msg = lit "GET request to " ++ get_url httpbin ++ lit " failed: "
                ++ lit "Connection error"
       /\ occurs_in (get_url httpbin) msg
       /\ occurs_in (lit "Connection error") msg.
Proof.
  split.
  - refine (proj1 (@get_with_params_contract
                     (env_with {| command := None; params := None |}
                        (Ok (response 200 []
                               (Decodes (JDict [(lit "k", JStr (lit "v"))])))))
                     httpbin (Some [(lit "k", PStr (lit "v"))]) World0)
              (response 200 [] (Decodes (JDict [(lit "k", JStr (lit "v"))])))
              _ eq_refl _ eq_refl).
    simpl. lia.
  - refine (proj2 (@get_with_params_contract
                     (env_with {| command := None; params := None |}
                        (Raise (RequestException (lit "Connection error") None)))
                     httpbin (Some [(lit "test", PStr (lit "value"))]) World0)
              (lit "Connection error") _).
    left. exists None. reflexivity.
Defined.

(** X26. A 2xx body that is not JSON makes [get_with_params] raise as well,
    with the decoder's message as the cause. *)
Lemma get_with_params_undecodable E self params w r why :
  session_get E (get_request self params) = Ok r ->
  (200 <= status_code r < 300)%Z ->
  content r = Undecodable why ->
  fst (get_with_params E self params w)
  = Raise (RequestException
             (lit "GET request to " ++ get_url self ++ lit " failed: " ++ why) None).
Proof.
  intros Hget Hst Hbody. run. rewrite Hget. simpl.
  rewrite raise_for_status_pass by lia. simpl.
  unfold Response_json. rewrite Hbody. reflexivity.
Qed.

(* ================================================================== *)
(** ** Splitting and stripping *)

Lemma split1_absent sep s : contains sep s = false -> split1 sep s = [s].
Proof.
  induction s as [|c r IH]; simpl; [reflexivity |].
  destruct (char_eqb sep c); simpl; [discriminate |].
  intros H. rewrite (IH H). reflexivity.
Qed.

Lemma split1_present sep s :
  contains sep s = true -> split1 sep s = [before sep s; after sep s].
Proof.
  induction s as [|c r IH]; simpl; [discriminate |].
  destruct (char_eqb sep c); simpl; [reflexivity |].
  intros H. rewrite (IH H). reflexivity.
Qed.

Lemma contains_app sep k v : contains sep (k ++ sep :: v) = true.
Proof.
  unfold contains. rewrite existsb_app. simpl.
  unfold char_eqb. rewrite N.eqb_refl. simpl. apply orb_true_r.
Qed.

Lemma before_app sep k v : contains sep k = false -> before sep (k ++ sep :: v) = k.
Proof.
  induction k as [|c k IH]; simpl.
  - unfold char_eqb. rewrite N.eqb_refl. reflexivity.
  - destruct (char_eqb sep c); simpl; [discriminate |].
    intros H. rewrite (IH H). reflexivity.
Qed.

Lemma after_app sep k v : contains sep k = false -> after sep (k ++ sep :: v) = v.
Proof.
  induction k as [|c k IH]; simpl.
  - unfold char_eqb. rewrite N.eqb_refl. reflexivity.
  - destruct (char_eqb sep c); simpl; [discriminate |].
    exact IH.
Qed.

Lemma lstrip_with_prefix p s :
  exists a, s = a ++ lstrip_with p s /\ forallb p a = true.
Proof.
  induction s as [|c r [a [Hr Ha]]]; simpl.
  - exists []. split; reflexivity.
  - destruct (p c) eqn:Hp.
    + exists (c :: a). simpl. rewrite Hp, Ha. split; [f_equal; exact Hr | reflexivity].
    + exists []. split; reflexivity.
Qed.

Lemma lstrip_with_head p s c t : lstrip_with p s = c :: t -> p c = false.
Proof.
  induction s as [|x r IH]; simpl; [discriminate |].
  destruct (p x) eqn:Hp; [exact IH |].
  intros H. injection H as -> _. exact Hp.
Qed.

(** [strip] removes blanks at both ends and nothing else. *)
Lemma strip_spec s :
  exists a b,
    s = a ++ strip s ++ b
    /\ forallb isspace_char a = true
    /\ forallb isspace_char b = true
    /\ (forall c t, strip s = c :: t -> isspace_char c = false)
    /\ (forall t c, strip s = t ++ [c] -> isspace_char c = false).
Proof.
  unfold strip.
  destruct (rstrip_with_suffix isspace_char s) as [b [Hs Hb]].
  destruct (lstrip_with_prefix isspace_char (rstrip_with isspace_char s))
    as [a [Hr Ha]].
  exists a, b. split; [| split; [exact Ha | split; [exact Hb | split]]].
  - rewrite app_assoc, <- Hr. exact Hs.
  - intros c t. apply lstrip_with_head.
  - intros t c H. rewrite H in Hr.
    apply (@rstrip_with_last isspace_char s (a ++ t) c).
    rewrite Hr, app_assoc. reflexivity.
Qed.

(* ================================================================== *)
(** ** parse_params *)

Lemma parse_params_single k v :
  contains EQUALS k = false ->
  parse_params [k ++ EQUALS :: v]
  = if is_empty (strip k)
    then Raise (ValueError (Text (lit "Empty key in parameter: " ++ k ++ EQUALS :: v)))
    else rbind (convert (strip v)) (fun x => Ok [(strip k, x)]).
Proof.
  intros Hk. unfold parse_params, parse_loop.
  rewrite contains_app. cbv [negb].
  rewrite split1_present by apply contains_app.
  rewrite (@before_app EQUALS k v Hk), (@after_app EQUALS k v Hk). cbv zeta.
  destruct (strip k); [reflexivity |].
  cbv [is_empty]. destruct (convert (strip v)); reflexivity.
Qed.

Lemma parse_loop_rejects l : forall acc,
  existsb malformed l = true ->
  exists m, parse_loop l acc = Raise (ValueError m).
Proof.
  induction l as [|param rest IH]; intros acc H; simpl in H; [discriminate |].
  simpl. unfold malformed in H.
  destruct (contains EQUALS param) eqn:Hc; simpl in *.
  2:{ eexists. reflexivity. }
  rewrite (split1_present _ _ Hc).
  destruct (strip (before EQUALS param)) eqn:Hk; simpl in *.
  { eexists. reflexivity. }
  destruct (convert (strip (after EQUALS param))) as [v | e] eqn:Hv; simpl.
  - apply IH. exact H.
  - destruct (convert_raises _ _ Hv) as [m ->]. eexists. reflexivity.
Qed.

Lemma parse_params_rejects l :
  existsb malformed l = true ->
  exists m, parse_params l = Raise (ValueError m).
Proof.
  destruct l as [|t l]; [discriminate |].
  intros H. apply (parse_loop_rejects (t :: l) [] H).
Qed.

(* ================================================================== *)
(** ** main *)

(** [main] is its body under the two top-level [except] clauses. *)
Lemma main_of_body E w :
  main E w
  = match main_body E w with
    | (Ok code, w') => (Ok code, w')
    | (Raise KeyboardInterrupt, w') => (Ok 130%Z, write Cancelled w')
    | (Raise (SystemExit c), w') => (Raise (SystemExit c), w')
    | (Raise e, w') => (Ok 1%Z, write (Unexpected e) w')
    end.
Proof.
  unfold main, try_except, bind, print, ret.
  destruct (main_body E w) as [[code | e] w']; [reflexivity |].
  destruct e; reflexivity.
Qed.

Lemma main_body_startup_raises E w e :
  startup_raises E e -> main_body E w = (Raise e, after_parse_args E w).
Proof.
  unfold main_body, bind, lift, parse_args_call.
  intros [H | [(args & Ha & H) | (args & st & Ha & Hs & H)]].
  - rewrite H. reflexivity.
  - rewrite Ha, H. reflexivity.
  - rewrite Ha, Hs. simpl. rewrite H. reflexivity.
Qed.

(** Start-up errors other than a [SystemExit] come with nothing printed. *)
Lemma after_parse_args_kept E w e :
  startup_raises E e -> (forall c, e <> SystemExit c) -> after_parse_args E w = w.
Proof.
  unfold after_parse_args.
  intros [H | [(args & Ha & H) | (args & st & Ha & Hs & H)]] Hne.
  - rewrite H. destruct e; try reflexivity. destruct (Hne code eq_refl).
  - rewrite Ha. reflexivity.
  - rewrite Ha. reflexivity.
Qed.

Lemma after_parse_args_world E w :
  sent (after_parse_args E w) = sent w
  /\ closed (after_parse_args E w) = closed w
  /\ (stdout (after_parse_args E w) = stdout w
      \/ (parse_args E = Raise (SystemExit 0%Z)
          /\ stdout (after_parse_args E w) = stdout w ++ [HelpRequested])).
Proof.
  unfold after_parse_args. destruct (parse_args E) as [args | e].
  - repeat split. left. reflexivity.
  - destruct e; try (repeat split; left; reflexivity).
    destruct (Z.eqb_spec code 0) as [-> | Hne].
    + repeat split. right. split; reflexivity.
    + repeat split. left. reflexivity.
Qed.

(** C5. When a token of the [--params] list of a [get] invocation has no
    [=], or has an empty key, [parse_params] raises a [ValueError]; the
    dispatcher prints it and returns 1, and the list of requests sent is what
    it was before: no network call was made, so [get_with_params], which
    sends a request whenever it runs, did not run. *)
Theorem malformed_token_stops_before_network E w args st l :
  started E args st ->
  command args = Some (lit "get") ->
  params args = Some l ->
  existsb malformed l = true ->
  exists m,
    parse_params l = Raise (ValueError m)
    /\ main E w = (Ok 1%Z, close_session (write (ParseError (ValueError m)) w))
    /\ sent (snd (main E w)) = sent w
    /\ (forall self ps w', sent (snd (get_with_params E self ps w')) <> sent w').
Proof.
  intros Hst Hc Hp Hbad.
  destruct (parse_params_rejects l Hbad) as [m Hm].
  exists m. split; [exact Hm |].
  assert (Hmain : main E w
                  = (Ok 1%Z, close_session (write (ParseError (ValueError m)) w))).
  { rewrite main_of_body, (main_body_get E w args st Hst Hc), Hp. simpl.
    rewrite Hm. reflexivity. }
  split; [exact Hmain | split].
  - rewrite Hmain. reflexivity.
  - intros self ps w' H. rewrite get_with_params_world in H. simpl in H.
    apply (f_equal (@List.length _)) in H. rewrite length_app in H.
    simpl in H. lia.
Qed.

Lemma malformed_token_stops_before_network_witness :
  exists m,
    parse_params [lit "a=1"; lit "=v"] = Raise (ValueError m)
    /\ main (env_with {| command := Some (lit "get");
                         params := Some [lit "a=1"; lit "=v"] |}
               (Raise (Exception (lit "unreachable")))) World0
       = (Ok 1%Z, close_session (write (ParseError (ValueError m)) World0))
    /\ sent (snd (main (env_with {| command := Some (lit "get");
                                    params := Some [lit "a=1"; lit "=v"] |}
                          (Raise (Exception (lit "unreachable")))) World0))
       = sent World0
    /\ (forall self ps w',
           sent (snd (get_with_params
                        (env_with {| command := Some (lit "get");
                                     params := Some [lit "a=1"; lit "=v"] |}
                           (Raise (Exception (lit "unreachable"))))
                        self ps w'))
           <> sent w').
Proof.
  refine (@malformed_token_stops_before_network
            (env_with {| command := Some (lit "get");
                         params := Some [lit "a=1"; lit "=v"] |}
               (Raise (Exception (lit "unreachable"))))
            World0
            {| command := Some (lit "get"); params := Some [lit "a=1"; lit "=v"] |}
            {| env := lit "dev"; api_base_url := lit "https://httpbin.org";
               api_key := None; log_level := lit "INFO" |}
            [lit "a=1"; lit "=v"] _ eq_refl eq_refl eq_refl).
  repeat split.
Defined.

Lemma str_eqb_eq a : forall b, str_eqb a b = true -> a = b.
Proof.
  induction a as [|x a IH]; intros [|y b] H; try reflexivity; try discriminate.
  change (str_eqb (x :: a) (y :: b)) with (char_eqb x y && str_eqb a b) in H.
  apply andb_true_iff in H. destruct H as [Hx Hab].
  apply N.eqb_eq in Hx. rewrite Hx, (IH b Hab). reflexivity.
Qed.

Lemma main_body_unknown E w args st c :
  started E args st ->
  command args = Some c ->
  is_empty c = false ->
  str_eqb c (lit "ping") = false ->
  str_eqb c (lit "get") = false ->
  main_body E w = (Ok 1%Z, close_session (write Help w)).
Proof.
  intros (Ha & Hs & Hl) Hc Hne Hp Hg.
  unfold main_body, bind, lift, with_service, parse_args_call, after_parse_args.
  rewrite Ha, Hs. simpl. rewrite Hl, Hc, Hp, Hg.
  destruct c; [discriminate | reflexivity].
Qed.

Lemma main_sent_of_body E w : sent (snd (main E w)) = sent (snd (main_body E w)).
Proof.
  rewrite main_of_body.
  destruct (main_body E w) as [[code | e] w']; [reflexivity |].
  destruct e; reflexivity.
Qed.

(** [main] sends at most one request, through the wrapper it built from the
    settings. *)
Lemma main_sends E w :
  sent (snd (main E w)) = sent w
  \/ exists st ps,
       get_settings E = Ok st
       /\ sent (snd (main E w)) = sent w ++ [get_request (service_of st) ps].
Proof.
  rewrite main_sent_of_body.
  destruct (parse_args E) as [args | e] eqn:Ha.
  2:{ left. rewrite (@main_body_startup_raises E w e); [| left; exact Ha].
      exact (proj1 (after_parse_args_world E w)). }
  destruct (get_settings E) as [st | e] eqn:Hs.
  2:{ left. rewrite (@main_body_startup_raises E w e);
        [| right; left; exists args; split; assumption].
      exact (proj1 (after_parse_args_world E w)). }
  destruct (setup_logger E (log_level st)) as [[] | e] eqn:Hl.
  2:{ left. rewrite (@main_body_startup_raises E w e);
        [| right; right; exists args, st; repeat split; assumption].
      exact (proj1 (after_parse_args_world E w)). }
  assert (Hst : started E args st) by (repeat split; assumption).
  destruct (command args) as [c |] eqn:Hc.
  2:{ left. rewrite (main_body_no_command E w args st Hst); [reflexivity | left; exact Hc]. }
  destruct (is_empty c) eqn:Hne.
  { destruct c; [| discriminate]. left.
    rewrite (main_body_no_command E w args st Hst); [reflexivity | right; exact Hc]. }
  destruct (str_eqb c (lit "ping")) eqn:Hp.
  { apply str_eqb_eq in Hp. subst c. right. exists st, None. split; [reflexivity |].
    rewrite (main_body_ping E w args st Hst Hc). simpl.
    destruct (handle_ping_command_run E (service_of st) w)
      as [(p & code & -> & _) | (e & _ & _ & ->)]; reflexivity. }
  destruct (str_eqb c (lit "get")) eqn:Hg.
  { apply str_eqb_eq in Hg. subst c.
    rewrite (main_body_get E w args st Hst Hc).
    destruct (parse_params (or_empty (params args))) as [ps | e]; [| left; reflexivity].
    right. exists st, (or_None ps). split; [reflexivity |]. simpl.
    pose proof (handle_get_command_run E (service_of st) ps w) as Hr. simpl in Hr.
    destruct (fst (get_with_params E (service_of st) (or_None ps) w)) as [j | e].
    - rewrite Hr. reflexivity.
    - destruct (is_Exception e); rewrite Hr; reflexivity. }
  left. rewrite (main_body_unknown E w args st c Hst Hc Hne Hp Hg). reflexivity.
Qed.

(** C8, amended. The stored timeout is the constructor's argument, unchanged
    and unchecked, so it is positive exactly when the argument is; the
    default is 30, and every request the dispatcher sends carries 30. *)
Theorem timeout_stored :
  (forall b t, timeout (ExampleService_init b t) = t)
  /\ (forall b t, (0 < timeout (ExampleService_init b t) <-> 0 < t)%Z)
  /\ DEFAULT_TIMEOUT = 30%Z
  /\ (forall E w, Forall (fun rq => req_timeout rq = 30%Z)
                    (skipn (List.length (sent w)) (sent (snd (main E w))))).
Proof.
  split; [| split; [| split]].
  - reflexivity.
  - intros b t. reflexivity.
  - reflexivity.
  - intros E w. destruct (main_sends E w) as [-> | (st & ps & _ & ->)].
    + rewrite skipn_all. constructor.
    + rewrite skipn_app, skipn_all, Nat.sub_diag. simpl.
      constructor; [reflexivity | constructor].
Qed.

(** What [ping] returns is an envelope. *)
Lemma ping_returns_envelope E self w j :
  fst (ping E self w) = Ok j ->
  exists status hs success message, j = envelope status hs success message.
Proof.
  run. destruct (session_get E _) as [r | e]; simpl.
  - destruct (raise_for_status r) as [[] | e]; simpl.
    + intros H. injection H as <-. eexists _, _, _, _. reflexivity.
    + destruct e; simpl; intros H; try discriminate.
      injection H as <-. eexists _, _, _, _. reflexivity.
  - destruct e; simpl; intros H; try discriminate.
    injection H as <-. eexists _, _, _, _. reflexivity.
Qed.

(** [handle_ping_command], from what [ping] gives it. *)
Lemma handle_ping_command_of_ping E s w :
  handle_ping_command E s w
  = match fst (ping E s w) with
    | Ok j =>
        (Ok (if truthy (match j with
                        | JDict d =>
                            match dict_get d (lit "success") with
                            | Some v => v
                            | None => JBool false
                            end
                        | _ => JBool false
                        end)
             then 0%Z else 1%Z),
         write (Dumps j) (record_call (ping_request s) w))
    | Raise e =>
        if is_Exception e
        then (Ok 1%Z, write (PingFailed e) (record_call (ping_request s) w))
        else (Raise e, record_call (ping_request s) w)
    end.
Proof.
  unfold handle_ping_command, try_except, bind, print, ret.
  rewrite (result_world (ping E s) w), ping_world. cbn [fst snd].
  destruct (fst (ping E s w)) as [j | e]; [reflexivity |].
  destruct (is_Exception e); reflexivity.
Qed.

Lemma success_flag_envelope status hs b message :
  success_flag (Dumps (envelope status hs b message)) = b.
Proof. destruct b; reflexivity. Qed.

(** C7. Exit codes of [main]: without a subcommand it prints the help and
    returns 1; [ping] prints one document and returns 0 when that document
    has [success] true, else 1; [get] returns 0 after printing the result, 1
    when [parse_params] raises and 1 when the request raises an error; a
    [KeyboardInterrupt] that reaches the top level gives 130; any other error
    that reaches the top level gives 1. *)
Theorem main_exit_codes E w :
  (forall args st,
      started E args st -> command args = None ->
      main E w = (Ok 1%Z, write Help w))
  /\ (forall args st,
         started E args st -> command args = Some (lit "ping") ->
         let w1 := record_call (ping_request (service_of st)) w in
         match fst (ping E (service_of st) w) with
         | Ok j =>
             exists status hs success message,
               j = envelope status hs success message
               /\ main E w = (Ok (if success then 0%Z else 1%Z),
                              close_session (write (Dumps j) w1))
         | Raise KeyboardInterrupt =>
             main E w = (Ok 130%Z, write Cancelled (close_session w1))
         | Raise (SystemExit c) =>
             main E w = (Raise (SystemExit c), close_session w1)
         | Raise e => main E w = (Ok 1%Z, close_session (write (PingFailed e) w1))
         end)
  /\ (forall args st,
         started E args st -> command args = Some (lit "get") ->
         match parse_params (or_empty (params args)) with
         | Raise e => main E w = (Ok 1%Z, close_session (write (ParseError e) w))
         | Ok ps =>
             let w1 := record_call (get_request (service_of st) (or_None ps)) w in
             match fst (get_with_params E (service_of st) (or_None ps) w) with
             | Ok j => main E w = (Ok 0%Z, close_session (write (Dumps j) w1))
             | Raise KeyboardInterrupt =>
                 main E w = (Ok 130%Z, write Cancelled (close_session w1))
             | Raise (SystemExit c) =>
                 main E w = (Raise (SystemExit c), close_session w1)
             | Raise e => main E w = (Ok 1%Z, close_session (write (GetFailed e) w1))
             end
         end)
  /\ (forall w',
         main_body E w = (Raise KeyboardInterrupt, w') ->
         main E w = (Ok 130%Z, write Cancelled w'))
  /\ (startup_raises E KeyboardInterrupt ->
      main E w = (Ok 130%Z, write Cancelled w))
  /\ (forall e w',
         main_body E w = (Raise e, w') -> is_Exception e = true ->
         main E w = (Ok 1%Z, write (Unexpected e) w'))
  /\ (forall e,
         startup_raises E e -> is_Exception e = true ->
         main E w = (Ok 1%Z, write (Unexpected e) w)).
Proof.
  repeat apply conj.
  - intros args st Hst Hc.
    rewrite main_of_body, (main_body_no_command E w args st Hst); [reflexivity | left; exact Hc].
  - intros args st Hst Hc w1. subst w1.
    rewrite main_of_body, (main_body_ping E w args st Hst Hc).
    rewrite (handle_ping_command_of_ping E (service_of st) w).
    destruct (fst (ping E (service_of st) w)) as [j | e] eqn:Hp.
    + destruct (ping_returns_envelope E (service_of st) w j Hp)
        as (status & hs & success & message & ->).
      exists status, hs, success, message. split; [reflexivity |].
      destruct success; reflexivity.
    + destruct e; reflexivity.
  - intros args st Hst Hc.
    rewrite main_of_body, (main_body_get E w args st Hst Hc).
    destruct (parse_params (or_empty (params args))) as [ps | e]; [| reflexivity].
    pose proof (handle_get_command_run E (service_of st) ps w) as Hr. simpl in Hr.
    simpl.
    destruct (fst (get_with_params E (service_of st) (or_None ps) w)) as [j | e].
    + rewrite Hr. reflexivity.
    + destruct e; simpl in Hr; rewrite Hr; reflexivity.
  - intros w' H. rewrite main_of_body, H. reflexivity.
  - intros H. rewrite main_of_body, (main_body_startup_raises E w _ H).
    rewrite (after_parse_args_kept E w _ H) by (intros c; discriminate). reflexivity.
  - intros e w' H He. rewrite main_of_body, H.
    destruct e; try discriminate; reflexivity.
  - intros e H He. rewrite main_of_body, (main_body_startup_raises E w _ H).
    rewrite (after_parse_args_kept E w _ H)
      by (intros c Hc; rewrite Hc in He; discriminate).
    destruct e; try discriminate; reflexivity.
Qed.

Example main_ping_200 :
  main (env_with {| command := Some (lit "ping"); params := None |}
          (Ok (response 200 [] (Decodes JNull)))) World0
  = (Ok 0%Z,
     {| stdout := [Dumps (envelope (JInt 200) (JDict []) true
                            (lit "Successfully connected to https://httpbin.org/get"))];
        sent := [ping_request httpbin];
        closed := 1 |}).
Proof. vm_compute. reflexivity. Qed.

Example main_ping_interrupted :
  main (env_with {| command := Some (lit "ping"); params := None |}
          (Raise KeyboardInterrupt)) World0
  = (Ok 130%Z,
     {| stdout := [Cancelled]; sent := [ping_request httpbin]; closed := 1 |}).
Proof. vm_compute. reflexivity. Qed.

Example main_get_failure :
  fst (main (env_with {| command := Some (lit "get"); params := Some [lit "k=v"] |}
               (Raise (RequestException (lit "Connection error") None))) World0)
  = Ok 1%Z.
Proof. vm_compute. reflexivity. Qed.

Lemma main_exit_codes_witness :
  main (env_with {| command := None; params := None |}
          (Raise (Exception (lit "unreachable")))) World0
  = (Ok 1%Z, write Help World0)
  /\ main {| parse_args := Raise KeyboardInterrupt;
             get_settings := Raise (Exception (lit "unreachable"));
             setup_logger := fun _ => Ok tt;
             session_get := fun _ => Raise (Exception (lit "unreachable")) |}
          World0
     = (Ok 130%Z, write Cancelled World0)
  /\ fst (main (env_with {| command := Some (lit "ping"); params := None |}
                  (Ok (response 200 [] (Decodes JNull)))) World0)
     = Ok 0%Z
  /\ fst (main (env_with {| command := Some (lit "ping"); params := None |}
                  (Raise (RequestException (lit "Network timeout") None))) World0)
     = Ok 1%Z
  /\ main (env_with {| command := Some (lit "get"); params := Some [lit "k=v"] |}
             (Ok (response 200 [] (Decodes (JDict [(lit "k", JStr (lit "v"))])))))
       World0
     = (Ok 0%Z,
        close_session
          (write (Dumps (JDict [(lit "k", JStr (lit "v"))]))
             (record_call (get_request httpbin (Some [(lit "k", PStr (lit "v"))]))
                World0))).
Proof.
  split; [| split; [| split; [| split]]].
  - refine (proj1 (@main_exit_codes
                     (env_with {| command := None; params := None |}
                        (Raise (Exception (lit "unreachable")))) World0)
              {| command := None; params := None |}
              {| env := lit "dev"; api_base_url := lit "https://httpbin.org";
                 api_key := None; log_level := lit "INFO" |} _ eq_refl).
    repeat split.
  - refine (proj1 (proj2 (proj2 (proj2 (proj2
              (@main_exit_codes
                 {| parse_args := Raise KeyboardInterrupt;
                    get_settings := Raise (Exception (lit "unreachable"));
                    setup_logger := fun _ => Ok tt;
                    session_get := fun _ => Raise (Exception (lit "unreachable")) |}
                 World0))))) _).
    left. reflexivity.
  - destruct (proj1 (proj2
               (@main_exit_codes
                  (env_with {| command := Some (lit "ping"); params := None |}
                     (Ok (response 200 [] (Decodes JNull)))) World0))
               {| command := Some (lit "ping"); params := None |}
               {| env := lit "dev"; api_base_url := lit "https://httpbin.org";
                  api_key := None; log_level := lit "INFO" |}
               (conj eq_refl (conj eq_refl eq_refl)) eq_refl)
      as (status & hs & success & message & Hj & Hmain).
    rewrite Hmain. injection Hj as _ _ <- _. reflexivity.
  - destruct (proj1 (proj2
               (@main_exit_codes
                  (env_with {| command := Some (lit "ping"); params := None |}
                     (Raise (RequestException (lit "Network timeout") None))) World0))
               {| command := Some (lit "ping"); params := None |}
               {| env := lit "dev"; api_base_url := lit "https://httpbin.org";
                  api_key := None; log_level := lit "INFO" |}
               (conj eq_refl (conj eq_refl eq_refl)) eq_refl)
      as (status & hs & success & message & Hj & Hmain).
    rewrite Hmain. injection Hj as _ _ <- _. reflexivity.
  - exact (proj1 (proj2 (proj2
             (@main_exit_codes
                (env_with {| command := Some (lit "get"); params := Some [lit "k=v"] |}
                   (Ok (response 200 []
                          (Decodes (JDict [(lit "k", JStr (lit "v"))])))))
                World0)))
             {| command := Some (lit "get"); params := Some [lit "k=v"] |}
             {| env := lit "dev"; api_base_url := lit "https://httpbin.org";
                api_key := None; log_level := lit "INFO" |}
             (conj eq_refl (conj eq_refl eq_refl)) eq_refl).
Defined.

(* ================================================================== *)
(** ** The conversion of values *)

(** C3, at the failing input. The token [a=] followed by U+00B2 is well
    formed, its value passes [isdigit], and [parse_params] raises the
    [ValueError] of [int] instead of returning a dictionary. *)
Theorem parse_params_superscript_digit :
  malformed (lit "a=" ++ [SUPERSCRIPT_TWO]) = false
  /\ isdigit [SUPERSCRIPT_TWO] = true
  /\ parse_params [lit "a=" ++ [SUPERSCRIPT_TWO]]
     = Raise (ValueError (InvalidLiteral "int" [SUPERSCRIPT_TWO])).
Proof. repeat split. Qed.

(** The examples of the specification. *)
Example parse_params_examples :
  parse_params [lit "a=true"] = Ok [(lit "a", PBool true)]
  /\ parse_params [lit "a=FALSE"] = Ok [(lit "a", PBool false)]
  /\ parse_params [lit "a=42"] = Ok [(lit "a", PInt 42)]
  /\ parse_params [lit "a=3.14"]
     = Ok [(lit "a", PFloat {| float_mantissa := 314; float_frac_digits := 2 |})]
  /\ parse_params [lit "a=hello"] = Ok [(lit "a", PStr (lit "hello"))].
Proof. repeat split. Qed.

(** A property of code points checked on each of the 128 ASCII ones. *)
Lemma ascii_cases (P : char -> bool) :
  forallb P (List.map N.of_nat (seq 0 128)) = true ->
  forall c, (c < 128)%N -> P c = true.
Proof.
  intros H c Hc. rewrite forallb_forall in H. apply H.
  rewrite <- (N2Nat.id c). apply in_map. apply in_seq. lia.
Qed.

Lemma digit_classes_ascii c :
  (c < 128)%N ->
  isdigit_char c = ascii_digit c
  /\ decimal_value c = if ascii_digit c then Some (c - 48)%N else None.
Proof.
  intros Hc.
  pose (P := fun c : char =>
               Bool.eqb (isdigit_char c) (ascii_digit c)
               && match decimal_value c with
                  | Some d => ascii_digit c && N.eqb d (c - 48)
                  | None => negb (ascii_digit c)
                  end).
  assert (HP : P c = true) by (apply ascii_cases; [vm_compute; reflexivity | exact Hc]).
  unfold P in HP. apply andb_true_iff in HP. destruct HP as [H1 H2].
  split; [apply Bool.eqb_prop; exact H1 |].
  destruct (decimal_value c) as [d |].
  - apply andb_true_iff in H2. destruct H2 as [-> Hd].
    apply N.eqb_eq in Hd. rewrite Hd. reflexivity.
  - destruct (ascii_digit c); [discriminate | reflexivity].
Qed.

Lemma isdigit_ascii s : is_ascii s = true -> isdigit s = all_digits s.
Proof.
  intros Hs. unfold isdigit, all_digits.
  destruct s as [|c s]; [reflexivity |].
  cbv [is_empty negb andb]. revert Hs. generalize (c :: s). clear c s.
  induction l as [|c s IH]; simpl; [reflexivity |].
  intros H. apply andb_true_iff in H. destruct H as [Hc Hs].
  apply N.ltb_lt in Hc.
  rewrite (proj1 (digit_classes_ascii c Hc)), (IH Hs). reflexivity.
Qed.

Lemma all_digits_decimal s :
  forallb ascii_digit s = true ->
  (forall acc, digits_value acc s
               = Some (fold_left (fun n c => (10 * n + (c - 48))%N) s acc))
  /\ decimal_run s = List.length s.
Proof.
  induction s as [|c s IH]; simpl; [split; reflexivity |].
  intros H. apply andb_true_iff in H. destruct H as [Hc Hs].
  assert (Hlt : (c < 128)%N).
  { unfold ascii_digit, in_range in Hc. apply andb_true_iff in Hc.
    destruct Hc as [_ Hc]. apply N.leb_le in Hc. lia. }
  destruct (digit_classes_ascii c Hlt) as [_ Hv]. rewrite Hc in Hv.
  destruct (IH Hs) as [IH1 IH2]. split.
  - intros acc. rewrite Hv. apply IH1.
  - unfold isdecimal_char. rewrite Hv, IH2. reflexivity.
Qed.

Lemma py_int_digits s :
  all_digits s = true ->
  List.length s <= int_max_str_digits ->
  py_int s = Ok (Z.of_N (decimal_number s)).
Proof.
  unfold all_digits. intros H Hlen. apply andb_true_iff in H.
  destruct H as [Hne Hd]. destruct (all_digits_decimal s Hd) as [Hv Hrun].
  unfold py_int. rewrite Hrun.
  destruct (Nat.ltb_spec int_max_str_digits (List.length s)) as [Hgt | _]; [lia |].
  destruct s; [discriminate |]. rewrite Hv. reflexivity.
Qed.

Lemma replace_absent sep s : count sep s = 0 -> replace sep [] s = s.
Proof.
  unfold count, replace. induction s as [|c s IH]; simpl; [reflexivity |].
  destruct (char_eqb sep c); simpl; [discriminate |].
  intros H. rewrite (IH H). reflexivity.
Qed.

Lemma replace_once sep s :
  count sep s = 1 ->
  contains sep s = true /\ before sep s ++ after sep s = replace sep [] s.
Proof.
  induction s as [|c s IH]; [discriminate |].
  unfold count, contains, replace in *. simpl.
  destruct (char_eqb sep c); simpl.
  - intros H. injection H as H. split; [reflexivity |].
    symmetry. apply replace_absent. exact H.
  - intros H. destruct (IH H) as [Hc Hr]. split; [exact Hc |].
    f_equal. exact Hr.
Qed.

Lemma py_float_digits s :
  count DOT s = 1 ->
  all_digits (replace DOT [] s) = true ->
  py_float s
  = Ok {| float_mantissa := decimal_number (replace DOT [] s);
          float_frac_digits := List.length (after DOT s) |}.
Proof.
  intros Hcount Hd. destruct (replace_once _ _ Hcount) as [Hc Hr].
  unfold py_float. rewrite (split1_present _ _ Hc), Hr.
  unfold all_digits in Hd. apply andb_true_iff in Hd. destruct Hd as [Hne Hd].
  destruct (replace DOT [] s) as [|c t]; [discriminate |].
  rewrite (proj1 (all_digits_decimal _ Hd)). reflexivity.
Qed.

Lemma is_ascii_replace sep s : is_ascii s = true -> is_ascii (replace sep [] s) = true.
Proof.
  unfold is_ascii, replace. induction s as [|c s IH]; simpl; [reflexivity |].
  intros H. apply andb_true_iff in H. destruct H as [Hc Hs].
  destruct (char_eqb sep c); simpl; [apply IH; exact Hs |].
  rewrite Hc. apply IH. exact Hs.
Qed.

(** On an ASCII value of at most [int_max_str_digits] characters the
    conversion of [parse_params] succeeds and follows the order of the
    specification. *)
Lemma convert_ascii value :
  is_ascii value = true ->
  List.length value <= int_max_str_digits ->
  convert value = Ok (coerce value).
Proof.
  intros Ha Hlen. unfold convert, coerce. cbn [existsb].
  destruct (str_eqb (lower value) (lit "true")); [reflexivity |].
  destruct (str_eqb (lower value) (lit "false")); [reflexivity |].
  cbn [orb]. rewrite (isdigit_ascii _ Ha).
  destruct (all_digits value) eqn:Hd.
  { rewrite (py_int_digits _ Hd Hlen). reflexivity. }
  rewrite (isdigit_ascii _ (is_ascii_replace DOT _ Ha)).
  rewrite andb_comm.
  destruct (Nat.eqb (count DOT value) 1) eqn:Hc; [| reflexivity].
  destruct (all_digits (replace DOT [] value)) eqn:Hr; [| reflexivity].
  apply Nat.eqb_eq in Hc. cbn [andb].
  rewrite (py_float_digits _ Hc Hr). reflexivity.
Qed.

(** X27. A token with a non-empty key and an ASCII value of at most
    [int_max_str_digits] characters is parsed, whatever its key, and its value
    is converted in the order boolean, integer, float, text. *)
Lemma parse_params_ascii_token k v :
  contains EQUALS k = false ->
  is_empty (strip k) = false ->
  is_ascii (strip v) = true ->
  List.length (strip v) <= int_max_str_digits ->
  parse_params [k ++ EQUALS :: v] = Ok [(strip k, coerce (strip v))].
Proof.
  intros Hk Hne Ha Hlen.
  rewrite (parse_params_single k v Hk), Hne, (convert_ascii _ Ha Hlen).
  reflexivity.
Qed.

Lemma parse_params_ascii_token_witness :
  parse_params [lit "n" ++ EQUALS :: lit " 3.14 "]
  = Ok [(strip (lit "n"), coerce (strip (lit " 3.14 ")))].
Proof.
  refine (parse_params_ascii_token (lit "n") (lit " 3.14 ") eq_refl eq_refl eq_refl _).
  apply Nat.leb_le. reflexivity.
Defined.

(* ================================================================== *)
(** ** parse_params: the dictionary it builds *)

Lemma str_eqb_same a : str_eqb a a = true.
Proof.
  induction a as [|c a IH]; [reflexivity |].
  change (str_eqb (c :: a) (c :: a)) with (char_eqb c c && str_eqb a a).
  unfold char_eqb. rewrite (N.eqb_refl c), IH. reflexivity.
Qed.

Lemma str_eqb_neq a b : a <> b -> str_eqb a b = false.
Proof.
  intros H. destruct (str_eqb a b) eqn:E; [| reflexivity].
  exfalso. apply H. apply (str_eqb_eq a b E).
Qed.

Lemma parse_params_loop l : parse_params l = parse_loop l [].
Proof. destruct l; reflexivity. Qed.

(** One turn of the loop on a token that passes both checks. *)
Lemma parse_loop_step t rest acc :
  malformed t = false ->
  parse_loop (t :: rest) acc
  = rbind (convert (value_of t))
      (fun v => parse_loop rest (dict_set acc (key_of t) v)).
Proof.
  unfold malformed, key_of, value_of. intros H.
  apply orb_false_iff in H. destruct H as [Hc Hk].
  apply negb_false_iff in Hc.
  cbn [parse_loop]. rewrite Hc. cbn [negb].
  rewrite (split1_present _ _ Hc). cbv zeta.
  destruct (strip (before EQUALS t)); [discriminate | reflexivity].
Qed.

Lemma parse_loop_malformed t rest acc :
  malformed t = true ->
  parse_loop (t :: rest) acc
  = Raise (ValueError (Text
      (if contains EQUALS t
       then lit "Empty key in parameter: " ++ t
       else lit "Invalid parameter format: " ++ t ++ lit ". Expected 'key=value'"))).
Proof.
  unfold malformed. intros H. cbn [parse_loop].
  destruct (contains EQUALS t) eqn:Hc; cbn [negb]; [| reflexivity].
  rewrite (split1_present _ _ Hc). cbv zeta.
  simpl in H. destruct (strip (before EQUALS t)); [reflexivity | discriminate].
Qed.

Lemma parse_loop_ok t rest acc d :
  parse_loop (t :: rest) acc = Ok d ->
  malformed t = false
  /\ exists v, convert (value_of t) = Ok v
               /\ parse_loop rest (dict_set acc (key_of t) v) = Ok d.
Proof.
  intros H. destruct (malformed t) eqn:Hm.
  - rewrite (parse_loop_malformed t rest acc Hm) in H. discriminate.
  - split; [reflexivity |]. rewrite (parse_loop_step t rest acc Hm) in H.
    destruct (convert (value_of t)) as [v | e]; [| discriminate].
    exists v. split; [reflexivity | exact H].
Qed.

Lemma parse_loop_app l1 : forall l2 acc,
  parse_loop (l1 ++ l2) acc
  = rbind (parse_loop l1 acc) (fun d => parse_loop l2 d).
Proof.
  induction l1 as [|t l1 IH]; intros l2 acc; [reflexivity |].
  rewrite <- app_comm_cons. destruct (malformed t) eqn:Hm.
  - rewrite !(parse_loop_malformed t _ acc Hm). reflexivity.
  - rewrite !(parse_loop_step t _ acc Hm).
    destruct (convert (value_of t)) as [v | e]; [apply IH | reflexivity].
Qed.

Lemma dict_set_keys {V} (d : dict V) k v :
  List.map fst (dict_set d k v) = add_key (List.map fst d) k.
Proof.
  unfold add_key. induction d as [|[k' v'] d IH]; [reflexivity |].
  cbn [dict_set List.map fst existsb].
  destruct (str_eqb k' k) eqn:E; [reflexivity |].
  cbn [List.map fst orb]. rewrite IH.
  destruct (existsb (fun k'0 => str_eqb k'0 k) (List.map fst d)); reflexivity.
Qed.

Lemma dict_get_set_same {V} (d : dict V) k v : dict_get (dict_set d k v) k = Some v.
Proof.
  induction d as [|[k' v'] d IH]; cbn [dict_set dict_get].
  - rewrite str_eqb_same. reflexivity.
  - destruct (str_eqb k' k) eqn:E; cbn [dict_get]; rewrite E; [reflexivity | exact IH].
Qed.

Lemma dict_get_set_other {V} (d : dict V) k k' v :
  k' <> k -> dict_get (dict_set d k' v) k = dict_get d k.
Proof.
  intros Hne. induction d as [|[k0 v0] d IH]; cbn [dict_set dict_get].
  - rewrite (str_eqb_neq k' k Hne). reflexivity.
  - destruct (str_eqb k0 k') eqn:E; cbn [dict_get].
    + apply str_eqb_eq in E. subst k0.
      rewrite (str_eqb_neq k' k Hne). reflexivity.
    + destruct (str_eqb k0 k); [reflexivity | exact IH].
Qed.

Lemma parse_loop_keys l : forall acc d,
  parse_loop l acc = Ok d ->
  List.map fst d = fold_left add_key (List.map key_of l) (List.map fst acc).
Proof.
  induction l as [|t l IH]; intros acc d H.
  - injection H as <-. reflexivity.
  - destruct (parse_loop_ok t l acc d H) as (_ & v & _ & Hrest).
    rewrite (IH _ _ Hrest), dict_set_keys. reflexivity.
Qed.

Lemma parse_loop_wellformed l : forall acc d,
  parse_loop l acc = Ok d -> existsb malformed l = false.
Proof.
  induction l as [|t l IH]; intros acc d H; [reflexivity |].
  destruct (parse_loop_ok t l acc d H) as (Hm & v & _ & Hrest).
  cbn [existsb]. rewrite Hm. exact (IH _ _ Hrest).
Qed.

Lemma parse_loop_preserves k l : forall acc d,
  parse_loop l acc = Ok d ->
  Forall (fun t => key_of t <> k) l ->
  dict_get d k = dict_get acc k.
Proof.
  induction l as [|t l IH]; intros acc d H Hk.
  - injection H as <-. reflexivity.
  - destruct (parse_loop_ok t l acc d H) as (_ & v & _ & Hrest).
    inversion Hk as [|? ? Ht Hl]; subst.
    rewrite (IH _ _ Hrest Hl). apply dict_get_set_other. exact Ht.
Qed.

Lemma add_key_in seen k x : In x (add_key seen k) <-> In x seen \/ x = k.
Proof.
  unfold add_key.
  destruct (existsb (fun k' => str_eqb k' k) seen) eqn:E.
  - split; [left; assumption |]. intros [H | ->]; [exact H |].
    apply existsb_exists in E. destruct E as (k' & Hin & Heq).
    apply str_eqb_eq in Heq. subst k'. exact Hin.
  - rewrite in_app_iff. simpl. intuition congruence.
Qed.

Lemma add_key_NoDup seen k : NoDup seen -> NoDup (add_key seen k).
Proof.
  intros Hnd. unfold add_key.
  destruct (existsb (fun k' => str_eqb k' k) seen) eqn:E; [exact Hnd |].
  apply NoDup_rev in Hnd. rewrite <- (rev_involutive (seen ++ [k])).
  apply NoDup_rev. rewrite rev_app_distr. simpl. constructor; [| exact Hnd].
  rewrite <- in_rev. intros Hin.
  assert (Ht : existsb (fun k' => str_eqb k' k) seen = true).
  { apply existsb_exists. exists k. split; [exact Hin | apply str_eqb_same]. }
  rewrite Ht in E. discriminate.
Qed.

Lemma fold_add_key_in ks : forall seen x,
  In x (fold_left add_key ks seen) <-> In x seen \/ In x ks.
Proof.
  induction ks as [|k ks IH]; intros seen x; simpl.
  - tauto.
  - rewrite IH, add_key_in. intuition congruence.
Qed.

Lemma fold_add_key_NoDup ks : forall seen,
  NoDup seen -> NoDup (fold_left add_key ks seen).
Proof.
  induction ks as [|k ks IH]; intros seen H; simpl; [exact H |].
  apply IH, add_key_NoDup, H.
Qed.

Lemma dict_get_in_keys {V} (d : dict V) k :
  dict_get d k <> None <-> In k (List.map fst d).
Proof.
  induction d as [|[k' v'] d IH]; cbn [dict_get List.map fst In].
  - split; [congruence | tauto].
  - destruct (str_eqb k' k) eqn:E.
    + apply str_eqb_eq in E. split; [left; exact E | congruence].
    + rewrite IH. split; [right; assumption |].
      intros [H | H]; [| exact H]. subst k'. rewrite str_eqb_same in E. discriminate.
Qed.

(** X1. The keys of the dictionary [parse_params] returns are pairwise
    different, none is empty and none begins or ends with a blank. *)
Theorem parse_params_keys_invariant l d :
  parse_params l = Ok d ->
  NoDup (List.map fst d)
  /\ Forall (fun k => k <> [] /\ trimmed k) (List.map fst d).
Proof.
  rewrite parse_params_loop. intros H.
  pose proof (parse_loop_keys l [] d H) as Hk. simpl in Hk.
  pose proof (parse_loop_wellformed l [] d H) as Hw.
  split.
  - rewrite Hk. apply fold_add_key_NoDup. constructor.
  - apply Forall_forall. intros k Hin. rewrite Hk in Hin.
    apply fold_add_key_in in Hin. destruct Hin as [[] | Hin].
    apply in_map_iff in Hin. destruct Hin as (t & <- & Ht).
    split.
    + assert (Hm : malformed t = false).
      { destruct (malformed t) eqn:Hm; [| reflexivity].
        assert (existsb malformed l = true)
          by (apply existsb_exists; exists t; split; assumption).
        congruence. }
      unfold malformed in Hm. apply orb_false_iff in Hm. destruct Hm as [_ Hm].
      unfold key_of. intros Hnil. rewrite Hnil in Hm. discriminate.
    + unfold key_of, trimmed.
      destruct (strip_spec (before EQUALS t)) as (a & b & _ & _ & _ & Hh & Hl).
      split; assumption.
Qed.

Lemma parse_params_keys_invariant_witness :
  NoDup (List.map fst [(lit "a", PInt 2); (lit "b", PStr (lit "x"))])
  /\ Forall (fun k => k <> [] /\ trimmed k)
       (List.map fst [(lit "a", PInt 2); (lit "b", PStr (lit "x"))]).
Proof.
  exact (parse_params_keys_invariant [lit "a=1"; lit " b =x"; lit "a = 2"]
           [(lit "a", PInt 2); (lit "b", PStr (lit "x"))] eq_refl).
Defined.

(** X2. The keys of the dictionary stand in the order in which they first
    occur among the tokens: a repeated key keeps its first place. *)
Theorem parse_params_key_order l d :
  parse_params l = Ok d ->
  List.map fst d = first_occurrences (List.map key_of l).
Proof.
  rewrite parse_params_loop. intros H.
  exact (parse_loop_keys l [] d H).
Qed.

Lemma parse_params_key_order_witness :
  List.map fst [(lit "b", PInt 3); (lit "a", PInt 2)]
  = first_occurrences (List.map key_of [lit "b=1"; lit "a=2"; lit "b=3"]).
Proof.
  exact (parse_params_key_order [lit "b=1"; lit "a=2"; lit "b=3"]
           [(lit "b", PInt 3); (lit "a", PInt 2)] eq_refl).
Defined.

(** X3. The last token with a given key decides the value stored under it:
    when no later token has the key of [t], the dictionary maps that key to
    the conversion of the value of [t]. *)
Theorem parse_params_last_wins l1 t l2 d :
  parse_params (l1 ++ t :: l2) = Ok d ->
  Forall (fun t' => key_of t' <> key_of t) l2 ->
  exists v, convert (value_of t) = Ok v /\ dict_get d (key_of t) = Some v.
Proof.
  rewrite parse_params_loop, parse_loop_app. intros H Hl2.
  destruct (parse_loop l1 []) as [d1 | e]; [| discriminate]. simpl in H.
  destruct (parse_loop_ok t l2 d1 d H) as (_ & v & Hv & Hrest).
  exists v. split; [exact Hv |].
  rewrite (parse_loop_preserves (key_of t) l2 _ d Hrest Hl2).
  apply dict_get_set_same.
Qed.

Lemma parse_params_last_wins_witness :
  exists v, convert (value_of (lit "a=2")) = Ok v
            /\ dict_get [(lit "a", PInt 2); (lit "b", PStr (lit "x"))]
                 (key_of (lit "a=2")) = Some v.
Proof.
  refine (parse_params_last_wins [lit "a=1"] (lit "a=2") [lit "b=x"]
            [(lit "a", PInt 2); (lit "b", PStr (lit "x"))] eq_refl _).
  constructor; [| constructor]. vm_compute. discriminate.
Defined.

(** X4. The dictionary has a key exactly when some token carries it. *)
Theorem parse_params_lookup_iff l d k :
  parse_params l = Ok d ->
  (dict_get d k <> None <-> exists t, In t l /\ key_of t = k).
Proof.
  rewrite parse_params_loop. intros H.
  rewrite dict_get_in_keys, (parse_loop_keys l [] d H), fold_add_key_in.
  split.
  - intros [Hf | Hin]; [inversion Hf |].
    apply in_map_iff in Hin. destruct Hin as (t & Hk & Ht).
    exists t. split; assumption.
  - intros (t & Ht & Hk). right. apply in_map_iff. exists t. split; assumption.
Qed.

Lemma parse_params_lookup_iff_witness :
  dict_get [(lit "a", PInt 1); (lit "b", PStr (lit "x"))] (lit "b") <> None
  /\ ~ (exists t, In t [lit "a=1"; lit " b = x "] /\ key_of t = lit "zz").
Proof.
  split.
  - apply (proj2 (parse_params_lookup_iff [lit "a=1"; lit " b = x "]
                    [(lit "a", PInt 1); (lit "b", PStr (lit "x"))] (lit "b") eq_refl)).
    exists (lit " b = x "). split; [right; left; reflexivity | reflexivity].
  - intros Hex.
    apply (proj2 (parse_params_lookup_iff [lit "a=1"; lit " b = x "]
                    [(lit "a", PInt 1); (lit "b", PStr (lit "x"))] (lit "zz") eq_refl))
      in Hex.
    apply Hex. reflexivity.
Defined.

(** X5. The first token that has no [=] or an empty key decides the error:
    when the tokens before it parse, [parse_params] raises the [ValueError]
    that names this token, whatever follows it. *)
Theorem parse_params_first_error good bad rest d :
  parse_params good = Ok d ->
  malformed bad = true ->
  parse_params (good ++ bad :: rest)
  = Raise (ValueError (Text
      (if contains EQUALS bad
       then lit "Empty key in parameter: " ++ bad
       else lit "Invalid parameter format: " ++ bad ++ lit ". Expected 'key=value'"))).
Proof.
  rewrite !parse_params_loop, parse_loop_app. intros -> Hbad.
  exact (parse_loop_malformed bad rest d Hbad).
Qed.

Lemma parse_params_first_error_witness :
  parse_params ([lit "a=1"] ++ lit "oops" :: [lit "=v"; lit "b=2"])
  = Raise (ValueError (Text
      (lit "Invalid parameter format: oops. Expected 'key=value'"))).
Proof.
  exact (parse_params_first_error [lit "a=1"] (lit "oops") [lit "=v"; lit "b=2"]
           [(lit "a", PInt 1)] eq_refl eq_refl).
Defined.

(* ================================================================== *)
(** ** The conversion of values, beyond ASCII *)

Lemma decimal_run_le s : decimal_run s <= List.length s.
Proof.
  induction s as [|c s IH]; simpl; [lia |].
  destruct (isdecimal_char c); lia.
Qed.

Lemma digits_value_decimal s : forall acc,
  forallb isdecimal_char s = true -> exists n, digits_value acc s = Some n.
Proof.
  induction s as [|c s IH]; intros acc H; simpl.
  - exists acc. reflexivity.
  - simpl in H. apply andb_true_iff in H. destruct H as [Hc Hs].
    unfold isdecimal_char in Hc.
    destruct (decimal_value c) as [dg |]; [| discriminate].
    apply IH. exact Hs.
Qed.

Lemma digits_decimal s :
  forallb isdigit_char s = true ->
  digits_are_decimal s = true ->
  forallb isdecimal_char s = true.
Proof.
  unfold digits_are_decimal. induction s as [|c s IH]; simpl; [reflexivity |].
  intros H1 H2. apply andb_true_iff in H1. apply andb_true_iff in H2.
  destruct H1 as [Hc Hs], H2 as [Hi Hr].
  rewrite Hc in Hi. simpl in Hi. rewrite Hi. exact (IH Hs Hr).
Qed.

Lemma digits_are_decimal_replace sep s :
  digits_are_decimal s = true -> digits_are_decimal (replace sep [] s) = true.
Proof.
  unfold digits_are_decimal, replace.
  induction s as [|c s IH]; simpl; [reflexivity |].
  intros H. apply andb_true_iff in H. destruct H as [Hc Hs].
  destruct (char_eqb sep c); simpl; [exact (IH Hs) |].
  rewrite Hc. exact (IH Hs).
Qed.

Lemma isdigit_all s : isdigit s = true -> s <> [] /\ forallb isdigit_char s = true.
Proof.
  destruct s as [|c s]; [discriminate |].
  intros H. split; [discriminate | exact H].
Qed.

(** X6. The conversion of a value fails only on a digit that is no decimal
    digit, or on more than [int_max_str_digits] characters: a value of at
    most that length whose digits are all decimal digits, of any script, is
    converted. *)
Theorem convert_total_on_decimal_digits value :
  digits_are_decimal value = true ->
  List.length value <= int_max_str_digits ->
  exists v, convert value = Ok v.
Proof.
  intros Hd Hlen. unfold convert.
  destruct (existsb _ _); [eexists; reflexivity |].
  destruct (isdigit value) eqn:Hi.
  - destruct (isdigit_all value Hi) as [Hne Hall].
    pose proof (digits_decimal value Hall Hd) as Hdec.
    destruct (digits_value_decimal value 0%N Hdec) as [n Hn].
    unfold py_int.
    destruct (Nat.ltb_spec int_max_str_digits (decimal_run value)) as [Hgt | _].
    { pose proof (decimal_run_le value). lia. }
    destruct value as [|c s]; [congruence |]. rewrite Hn.
    eexists. reflexivity.
  - destruct (isdigit (replace DOT [] value)) eqn:Hr; [| eexists; reflexivity].
    destruct (Nat.eqb (count DOT value) 1) eqn:Hc; [| eexists; reflexivity].
    apply Nat.eqb_eq in Hc. cbn [andb].
    destruct (replace_once _ _ Hc) as [Hcont Hsplit].
    destruct (isdigit_all _ Hr) as [Hne Hall].
    pose proof (digits_decimal _ Hall (digits_are_decimal_replace DOT value Hd)) as Hdec.
    destruct (digits_value_decimal _ 0%N Hdec) as [n Hn].
    unfold py_float. rewrite (split1_present _ _ Hcont), Hsplit.
    destruct (replace DOT [] value) as [|c s]; [congruence |]. rewrite Hn.
    eexists. reflexivity.
Qed.

(** U+0663 and U+0665, ARABIC-INDIC DIGIT THREE and FIVE: ["٣.٥"]. *)
Lemma convert_total_on_decimal_digits_witness :
  exists v, convert [1635; 46; 1637]%N = Ok v.
Proof.
  refine (convert_total_on_decimal_digits [1635; 46; 1637]%N eq_refl _).
  apply Nat.leb_le. reflexivity.
Defined.

Lemma forallb_has_false {A} (p : A -> bool) l x :
  In x l -> p x = false -> forallb p l = false.
Proof.
  intros Hin Hp. destruct (forallb p l) eqn:E; [| reflexivity].
  rewrite forallb_forall in E. rewrite (E x Hin) in Hp. discriminate.
Qed.

Lemma isdigit_has_other s c :
  In c s -> isdigit_char c = false -> isdigit s = false.
Proof.
  intros Hin Hc. destruct s as [|x s]; [reflexivity |].
  exact (forallb_has_false isdigit_char (x :: s) c Hin Hc).
Qed.

Lemma in_replace sep s c : In c s -> c <> sep -> In c (replace sep [] s).
Proof.
  unfold replace. intros Hin Hne. apply in_flat_map. exists c. split; [exact Hin |].
  destruct (char_eqb sep c) eqn:E; [| left; reflexivity].
  apply N.eqb_eq in E. congruence.
Qed.

(** X7. A value that is neither [true] nor [false] and has a character that
    is neither a digit nor a dot stays the text it is: signs, exponents,
    thousands separators and hexadecimal prefixes are not read as numbers. *)
Theorem convert_keeps_text value c :
  In c value ->
  isdigit_char c = false ->
  c <> DOT ->
  existsb (str_eqb (lower value)) [lit "true"; lit "false"] = false ->
  convert value = Ok (PStr value).
Proof.
  intros Hin Hc Hdot Hbool. unfold convert. rewrite Hbool.
  rewrite (isdigit_has_other value c Hin Hc).
  rewrite (isdigit_has_other (replace DOT [] value) c (in_replace DOT value c Hin Hdot) Hc).
  reflexivity.
Qed.

Lemma convert_keeps_text_witness :
  convert (lit "-5") = Ok (PStr (lit "-5"))
  /\ convert (lit "1e3") = Ok (PStr (lit "1e3")).
Proof.
  split.
  - refine (convert_keeps_text (lit "-5") 45%N _ eq_refl _ eq_refl).
    + left. reflexivity.
    + intros H. discriminate H.
  - refine (convert_keeps_text (lit "1e3") 101%N _ eq_refl _ eq_refl).
    + right. left. reflexivity.
    + intros H. discriminate H.
Defined.

(* ================================================================== *)
(** ** The client wrapper, further *)

Lemma rstrip_with_all p s : forallb p s = true -> rstrip_with p s = [].
Proof.
  induction s as [|c s IH]; simpl; [reflexivity |].
  intros H. apply andb_true_iff in H. destruct H as [Hc Hs].
  rewrite (IH Hs), Hc. reflexivity.
Qed.

Lemma rstrip_with_kept p s :
  (forall t c, s = t ++ [c] -> p c = false) -> rstrip_with p s = s.
Proof.
  intros Hlast. destruct (rstrip_with_suffix p s) as [tl [Hs Htl]].
  destruct tl as [|x tl'] using rev_ind.
  - rewrite app_nil_r in Hs. symmetry. exact Hs.
  - clear IHtl'. rewrite forallb_app in Htl. apply andb_true_iff in Htl.
    destruct Htl as [_ Hx]. simpl in Hx. rewrite andb_true_r in Hx.
    rewrite app_assoc in Hs. rewrite (Hlast _ _ Hs) in Hx. discriminate.
Qed.

Lemma is_slash c : existsb (char_eqb c) [SLASH] = char_eqb c SLASH.
Proof. simpl. apply orb_false_r. Qed.

(** X8. A base URL that does not end with a slash is stored as it is, the
    constructor applied to a stored base URL changes nothing, and a base URL
    made of slashes only (or empty) is stored empty, so that the requests go
    to ["/get"]. *)
Theorem base_url_kept :
  (forall b t, (forall p, b <> p ++ [SLASH]) ->
               base_url (ExampleService_init b t) = b)
  /\ (forall b t t',
         base_url (ExampleService_init (base_url (ExampleService_init b t)) t')
         = base_url (ExampleService_init b t))
  /\ (forall b t, Forall (eq SLASH) b ->
                  get_url (ExampleService_init b t) = lit "/get").
Proof.
  assert (Hkeep : forall b, (forall p, b <> p ++ [SLASH]) -> rstrip [SLASH] b = b).
  { intros b Hb. unfold rstrip. apply rstrip_with_kept. intros t c Hs.
    rewrite is_slash. destruct (char_eqb c SLASH) eqn:E; [| reflexivity].
    apply N.eqb_eq in E. subst c. destruct (Hb t Hs). }
  split; [| split].
  - intros b t Hb. exact (Hkeep b Hb).
  - intros b t t'. unfold ExampleService_init. cbn [base_url].
    apply Hkeep. intros p Hp. unfold rstrip in Hp.
    apply rstrip_with_last in Hp. vm_compute in Hp. discriminate.
  - intros b t Hb. unfold get_url, ExampleService_init. cbn [base_url].
    unfold rstrip. rewrite rstrip_with_all; [reflexivity |].
    apply forallb_forall. intros c Hc. rewrite Forall_forall in Hb.
    rewrite <- (Hb c Hc). reflexivity.
Qed.

Lemma base_url_kept_witness :
  base_url (ExampleService_init (lit "https://httpbin.org") 30%Z)
  = lit "https://httpbin.org"
  /\ get_url (ExampleService_init (lit "//") 30%Z) = lit "/get".
Proof.
  split.
  - refine (proj1 base_url_kept (lit "https://httpbin.org") 30%Z _).
    intros p Hp. apply (f_equal (@rev _)) in Hp. rewrite rev_app_distr in Hp.
    vm_compute in Hp. discriminate Hp.
  - refine (proj2 (proj2 base_url_kept) (lit "//") 30%Z _).
    repeat constructor.
Defined.

Lemma raise_for_status_cases r :
  raise_for_status r
  = if error_status r
    then Raise (RequestException (http_error_msg r) (Some r))
    else Ok tt.
Proof.
  unfold error_status.
  destruct (Z.leb_spec 400 (status_code r)); destruct (Z.ltb_spec (status_code r) 600);
    cbn [andb].
  - apply raise_for_status_error. lia.
  - apply raise_for_status_pass. lia.
  - apply raise_for_status_pass. lia.
  - apply raise_for_status_pass. lia.
Qed.

(** X9. Whenever the session returns a response, [ping] returns an envelope
    that carries the status code of the response, and its [success] is false
    exactly for the statuses from 400 to 599: every other status, 2xx or
    not, counts as a success. *)
Theorem ping_status_decides_success E self w r :
  session_get E (ping_request self) = Ok r ->
  exists hs message,
    fst (ping E self w)
    = Ok (envelope (JInt (status_code r)) hs (negb (error_status r)) message).
Proof.
  intros Hget. run. rewrite Hget. simpl.
  rewrite raise_for_status_cases.
  destruct (error_status r); simpl; eexists _, _; reflexivity.
Qed.

Lemma ping_status_decides_success_witness :
  exists hs message,
    fst (ping (env_with {| command := None; params := None |}
                 (Ok (response 302 [] (Undecodable []))))
           httpbin World0)
    = Ok (envelope (JInt 302) hs true message).
Proof.
  exact (ping_status_decides_success
           (env_with {| command := None; params := None |}
              (Ok (response 302 [] (Undecodable []))))
           httpbin World0 (response 302 [] (Undecodable [])) eq_refl).
Defined.

(** X10. [ping] raises exactly when the session raises something that is not
    a [RequestException], and then it raises that same exception: errors
    other than request errors are not absorbed into an envelope. *)
Theorem ping_raises_iff E self w e :
  fst (ping E self w) = Raise e
  <-> session_get E (ping_request self) = Raise e /\ is_RequestException e = false.
Proof.
  split.
  - intros H. destruct (ping_raises E self w e H) as [Hs Hne].
    split; [exact Hs |]. destruct e; try reflexivity. destruct (Hne m response0 eq_refl).
  - intros [Hs Hne]. run. rewrite Hs.
    destruct e; try discriminate; reflexivity.
Qed.

Lemma ping_error_status_drops_headers_witness :
  fst (ping (env_with {| command := None; params := None |}
               (Ok (response 404 [(lit "Content-Type", lit "text/html")]
                      (Undecodable []))))
         httpbin World0)
  = Ok (envelope (JInt 404) (JDict []) false
          (lit "Connection to " ++ get_url httpbin ++ lit " failed: "
           ++ http_error_msg (response 404 [(lit "Content-Type", lit "text/html")]
                                (Undecodable [])))).
Proof.
  refine (ping_error_status_drops_headers
            (env_with {| command := None; params := None |}
               (Ok (response 404 [(lit "Content-Type", lit "text/html")]
                      (Undecodable []))))
            httpbin World0
            (response 404 [(lit "Content-Type", lit "text/html")] (Undecodable []))
            eq_refl _).
  simpl. lia.
Defined.

(** X11. What [get_with_params] raises is either a [RequestException] that
    carries no response and whose message begins with
    "GET request to <url> failed: ", or an exception of another kind passed
    on unchanged: one the session raised, or one [Response.json()] raised on
    a response that passed [raise_for_status]. *)
Theorem get_with_params_raises E self params w e :
  fst (get_with_params E self params w) = Raise e ->
  (exists cause,
      e = RequestException
            (lit "GET request to " ++ get_url self ++ lit " failed: " ++ cause) None)
  \/ (is_RequestException e = false
      /\ session_get E (get_request self params) = Raise e)
  \/ (is_RequestException e = false
      /\ exists r, session_get E (get_request self params) = Ok r
                   /\ error_status r = false
                   /\ Response_json r = Raise e).
Proof.
  run. destruct (session_get E _) as [r | e0]; simpl.
  - rewrite raise_for_status_cases. destruct (error_status r) eqn:Hst; simpl.
    + intros H. injection H as <-. left. eexists. reflexivity.
    + destruct (Response_json r) as [j | e1] eqn:Hj; simpl; [discriminate |].
      destruct e1; simpl; intros H; injection H as <-;
        try (right; right; split; [reflexivity |]; exists r; repeat split; assumption).
      left. eexists. reflexivity.
  - destruct e0; simpl; intros H; injection H as <-;
      try (right; left; split; reflexivity).
    left. eexists. reflexivity.
Qed.

Lemma get_with_params_raises_witness :
  let wrapped :=
    RequestException
      (lit "GET request to https://httpbin.org/get failed: 500 Server Error:  for url: https://httpbin.org/get")
      None in
  let E500 := env_with {| command := None; params := None |}
                (Ok (response 500 [] (Undecodable []))) in
  let passed := ValueError (DigitLimit 4301) in
  let Elong := env_with {| command := None; params := None |}
                 (Ok (response 200 [] (Overlong 4301))) in
  ((exists cause,
       wrapped = RequestException
                   (lit "GET request to " ++ get_url httpbin ++ lit " failed: " ++ cause)
                   None)
   \/ (is_RequestException wrapped = false
       /\ session_get E500 (get_request httpbin None) = Raise wrapped)
   \/ (is_RequestException wrapped = false
       /\ exists r, session_get E500 (get_request httpbin None) = Ok r
                    /\ error_status r = false
                    /\ Response_json r = Raise wrapped))
  /\ ((exists cause,
          passed = RequestException
                     (lit "GET request to " ++ get_url httpbin ++ lit " failed: " ++ cause)
                     None)
      \/ (is_RequestException passed = false
          /\ session_get Elong (get_request httpbin None) = Raise passed)
      \/ (is_RequestException passed = false
          /\ exists r, session_get Elong (get_request httpbin None) = Ok r
                       /\ error_status r = false
                       /\ Response_json r = Raise passed)).
Proof.
  split.
  - exact (get_with_params_raises
             (env_with {| command := None; params := None |}
                (Ok (response 500 [] (Undecodable []))))
             httpbin None World0 _ eq_refl).
  - exact (get_with_params_raises
             (env_with {| command := None; params := None |}
                (Ok (response 200 [] (Overlong 4301))))
             httpbin None World0 _ eq_refl).
Defined.

Lemma get_with_params_undecodable_witness :
  fst (get_with_params
         (env_with {| command := None; params := None |}
            (Ok (response 200 [] (Undecodable (lit "Expecting value")))))
         httpbin None World0)
  = Raise (RequestException
             (lit "GET request to " ++ get_url httpbin ++ lit " failed: "
              ++ lit "Expecting value") None).
Proof.
  refine (get_with_params_undecodable
            (env_with {| command := None; params := None |}
               (Ok (response 200 [] (Undecodable (lit "Expecting value")))))
            httpbin None World0
            (response 200 [] (Undecodable (lit "Expecting value")))
            (lit "Expecting value") eq_refl _ eq_refl).
  simpl. lia.
Defined.

Lemma get_with_params_ok E self params w j :
  fst (get_with_params E self params w) = Ok j
  <-> exists r, session_get E (get_request self params) = Ok r
                /\ error_status r = false
                /\ content r = Decodes j.
Proof.
  run. split.
  - destruct (session_get E _) as [r | e0]; simpl.
    + rewrite raise_for_status_cases. destruct (error_status r) eqn:Hst; simpl;
        [discriminate |].
      unfold Response_json. destruct (content r) eqn:Hc; simpl; try discriminate.
      intros H. injection H as <-. exists r. repeat split; assumption.
    + destruct e0; discriminate.
  - intros (r & Hget & Hst & Hc). rewrite Hget. simpl.
    rewrite raise_for_status_cases, Hst. simpl.
    unfold Response_json. rewrite Hc. reflexivity.
Qed.

(** X13. [get_with_params] returns a document exactly when the session
    returns a response whose status is not from 400 to 599 and whose body
    decodes to that document. *)
Theorem get_with_params_returns_iff E self params w j :
  fst (get_with_params E self params w) = Ok j
  <-> exists r, session_get E (get_request self params) = Ok r
                /\ error_status r = false
                /\ content r = Decodes j.
Proof.
  split.
  - intros H. run.
    destruct (session_get E _) as [r | e0]; simpl in H.
    + rewrite raise_for_status_cases in H.
      destruct (error_status r) eqn:Hst; simpl in H; [discriminate |].
      unfold Response_json in H.
      destruct (content r) eqn:Hc; simpl in H; try discriminate.
      injection H as <-. exists r. repeat split; assumption.
    + destruct e0; discriminate.
  - intros Hex. apply get_with_params_ok. exact Hex.
Qed.

(* ================================================================== *)
(** ** The dispatcher, further *)

Lemma main_top_level E w : main E w = top_level (main_body E w).
Proof.
  rewrite main_of_body. unfold top_level.
  destruct (main_body E w) as [[code | e] w']; [reflexivity |].
  destruct e; reflexivity.
Qed.

Lemma handle_ping_command_exit E s w :
  fst (handle_ping_command E s w)
  = match session_get E (ping_request s) with
    | Ok r => Ok (if error_status r then 1%Z else 0%Z)
    | Raise e => if is_Exception e then Ok 1%Z else Raise e
    end.
Proof.
  unfold handle_ping_command. run.
  destruct (session_get E _) as [r | e]; simpl.
  - rewrite raise_for_status_cases. destruct (error_status r); reflexivity.
  - destruct e; reflexivity.
Qed.

Lemma handle_get_command_exit E s ps w :
  fst (handle_get_command E s ps w)
  = match fst (get_with_params E s (or_None ps) w) with
    | Ok _ => Ok 0%Z
    | Raise e => if is_Exception e then Ok 1%Z else Raise e
    end.
Proof.
  pose proof (handle_get_command_run E s ps w) as Hr. simpl in Hr.
  destruct (fst (get_with_params E s (or_None ps) w)) as [j | e].
  - rewrite Hr. reflexivity.
  - destruct (is_Exception e); rewrite Hr; reflexivity.
Qed.

(** The outcomes of the two handlers: a request is recorded, and then either
    one document is printed and 0 or 1 returned, or an exception that is no
    [Exception] passes. *)
Lemma handlers_shape E s w :
  (forall o, o = handle_ping_command E s w \/ (exists ps, o = handle_get_command E s ps w) ->
     exists rq,
       (exists code p, o = (Ok code, write p (record_call rq w))
                       /\ (code = 0%Z \/ code = 1%Z))
       \/ (exists e, is_Exception e = false /\ o = (Raise e, record_call rq w))).
Proof.
  intros o [-> | [ps ->]].
  - exists (ping_request s).
    destruct (handle_ping_command_run E s w)
      as [(p & code & -> & -> & _) | (e & He & _ & ->)].
    + left. eexists _, p. split; [reflexivity |].
      destruct (success_flag p); [left | right]; reflexivity.
    + right. exists e. split; [exact He | reflexivity].
  - exists (get_request s (or_None ps)).
    pose proof (handle_get_command_run E s ps w) as Hr. simpl in Hr.
    destruct (fst (get_with_params E s (or_None ps) w)) as [j | e].
    + left. exists 0%Z, (Dumps j). split; [exact Hr | left; reflexivity].
    + destruct (is_Exception e) eqn:He.
      * left. exists 1%Z, (GetFailed e). split; [exact Hr | right; reflexivity].
      * right. exists e. split; [exact He | exact Hr].
Qed.

(** Every way through the body of [main]. *)
Lemma main_body_cases E w (P : result Z * World -> Prop) :
  (forall e, startup_raises E e -> dispatches E = false ->
             P (Raise e, after_parse_args E w)) ->
  (dispatches E = false -> P (Ok 1%Z, write Help w)) ->
  (forall rq code p,
      dispatches E = true -> code = 0%Z \/ code = 1%Z ->
      P (Ok code, close_session (write p (record_call rq w)))) ->
  (forall rq e,
      dispatches E = true -> is_Exception e = false ->
      P (Raise e, close_session (record_call rq w))) ->
  (forall p, dispatches E = true -> P (Ok 1%Z, close_session (write p w))) ->
  P (main_body E w).
Proof.
  intros Hraise Hhelp Hdone Hpass Hearly.
  unfold dispatches in *.
  destruct (parse_args E) as [args | e] eqn:Ha.
  2:{ rewrite (main_body_startup_raises E w e); [| left; exact Ha].
      apply Hraise; [left; exact Ha | reflexivity]. }
  destruct (get_settings E) as [st | e] eqn:Hs.
  2:{ assert (Hr : startup_raises E e)
        by (right; left; exists args; split; assumption).
      rewrite (main_body_startup_raises E w e Hr). apply Hraise; [exact Hr | reflexivity]. }
  destruct (setup_logger E (log_level st)) as [[] | e] eqn:Hl.
  2:{ assert (Hr : startup_raises E e)
        by (right; right; exists args, st; repeat split; assumption).
      rewrite (main_body_startup_raises E w e Hr). apply Hraise; [exact Hr | reflexivity]. }
  assert (Hst : started E args st) by (repeat split; assumption).
  destruct (command args) as [[|c0 c] |] eqn:Hc.
  - rewrite (main_body_no_command E w args st Hst); [| right; exact Hc].
    apply Hhelp. reflexivity.
  - destruct (str_eqb (c0 :: c) (lit "ping")) eqn:Hp.
    { apply str_eqb_eq in Hp. rewrite Hp in Hc.
      rewrite (main_body_ping E w args st Hst Hc).
      destruct (handlers_shape E (service_of st) w
                  (handle_ping_command E (service_of st) w) (or_introl eq_refl))
        as [rq [(code & p & -> & Hcode) | (e & He & ->)]].
      - apply Hdone; [reflexivity | exact Hcode].
      - apply Hpass; [reflexivity | exact He]. }
    destruct (str_eqb (c0 :: c) (lit "get")) eqn:Hg.
    { apply str_eqb_eq in Hg. rewrite Hg in Hc.
      rewrite (main_body_get E w args st Hst Hc).
      destruct (parse_params (or_empty (params args))) as [ps | e].
      - destruct (handlers_shape E (service_of st) w
                    (handle_get_command E (service_of st) ps w)
                    (or_intror (ex_intro _ ps eq_refl)))
          as [rq [(code & p & -> & Hcode) | (e & He & ->)]].
        + apply Hdone; [reflexivity | exact Hcode].
        + apply Hpass; [reflexivity | exact He].
      - apply Hearly. reflexivity. }
    rewrite (main_body_unknown E w args st (c0 :: c) Hst Hc eq_refl Hp Hg).
    apply Hearly. reflexivity.
  - rewrite (main_body_no_command E w args st Hst); [| left; exact Hc].
    apply Hhelp. reflexivity.
Qed.

Lemma top_level_zero r w :
  fst (top_level (r, w)) = Ok 0%Z <-> r = Ok 0%Z.
Proof.
  unfold top_level. destruct r as [code | e]; [tauto |].
  destruct e; simpl; split; discriminate.
Qed.

(** X14. [main] closes the session of the wrapper exactly once when it gets
    as far as building the wrapper, on every way out (an exit code, an
    interrupt, a [SystemExit]), and never otherwise. *)
Theorem main_closes_session E w :
  closed (snd (main E w)) = closed w + (if dispatches E then 1 else 0).
Proof.
  rewrite main_top_level.
  apply (main_body_cases E w
           (fun o => closed (snd (top_level o))
                     = closed w + (if dispatches E then 1 else 0))).
  - intros e _ ->.
    pose proof (proj1 (proj2 (after_parse_args_world E w))) as Hc.
    destruct e; simpl; lia.
  - intros ->. simpl. lia.
  - intros rq code p -> _. simpl. lia.
  - intros rq e -> He. destruct e; try discriminate; simpl; lia.
  - intros p ->. simpl. lia.
Qed.

(** X15. A run of [main] that returns an exit code has printed exactly one
    item on standard output.  A run that leaves by [SystemExit] has printed
    nothing of its own: standard output holds at most the help text argparse
    printed before its [SystemExit(0)]. *)
Theorem main_prints_once E w :
  match fst (main E w) with
  | Ok _ => exists p, stdout (snd (main E w)) = stdout w ++ [p]
  | Raise _ =>
      stdout (snd (main E w)) = stdout w
      \/ (parse_args E = Raise (SystemExit 0%Z)
          /\ stdout (snd (main E w)) = stdout w ++ [HelpRequested])
  end.
Proof.
  rewrite main_top_level.
  apply (main_body_cases E w
           (fun o => match fst (top_level o) with
                     | Ok _ => exists p, stdout (snd (top_level o)) = stdout w ++ [p]
                     | Raise _ =>
                         stdout (snd (top_level o)) = stdout w
                         \/ (parse_args E = Raise (SystemExit 0%Z)
                             /\ stdout (snd (top_level o))
                                = stdout w ++ [HelpRequested])
                     end)).
  - intros e Hr _.
    destruct e; simpl;
      try (rewrite (after_parse_args_kept E w _ Hr) by (intros c; discriminate);
           eexists; reflexivity).
    exact (proj2 (proj2 (after_parse_args_world E w))).
  - intros _. simpl. eexists. reflexivity.
  - intros rq code p _ _. simpl. eexists. reflexivity.
  - intros rq e _ He. destruct e; try discriminate; simpl;
      [eexists; reflexivity | left; reflexivity].
  - intros p _. simpl. eexists. reflexivity.
Qed.

Lemma main_prints_once_witness :
  stdout (snd (main {| parse_args := Raise (SystemExit 0%Z);
                       get_settings := Raise (Exception (lit "unreachable"));
                       setup_logger := fun _ => Ok tt;
                       session_get := fun _ => Raise (Exception (lit "unreachable")) |}
                 World0))
  = stdout World0
  \/ (Raise (SystemExit 0%Z) = Raise (A := Namespace) (SystemExit 0%Z)
      /\ stdout (snd (main {| parse_args := Raise (SystemExit 0%Z);
                              get_settings := Raise (Exception (lit "unreachable"));
                              setup_logger := fun _ => Ok tt;
                              session_get :=
                                fun _ => Raise (Exception (lit "unreachable")) |}
                        World0))
         = stdout World0 ++ [HelpRequested]).
Proof.
  exact (main_prints_once
           {| parse_args := Raise (SystemExit 0%Z);
              get_settings := Raise (Exception (lit "unreachable"));
              setup_logger := fun _ => Ok tt;
              session_get := fun _ => Raise (Exception (lit "unreachable")) |}
           World0).
Defined.

(** X16. [main] returns 0, 1 or 130 and nothing else, it returns 0 only
    after exactly one request has been sent, and the only exception that
    leaves it is [SystemExit]. *)
Theorem main_exit_code_range E w :
  match fst (main E w) with
  | Ok code =>
      (code = 0%Z \/ code = 1%Z \/ code = 130%Z)
      /\ (code = 0%Z -> exists rq, sent (snd (main E w)) = sent w ++ [rq])
  | Raise e => exists c, e = SystemExit c
  end.
Proof.
  rewrite main_top_level.
  apply (main_body_cases E w
           (fun o => match fst (top_level o) with
                     | Ok code =>
                         (code = 0%Z \/ code = 1%Z \/ code = 130%Z)
                         /\ (code = 0%Z ->
                             exists rq, sent (snd (top_level o)) = sent w ++ [rq])
                     | Raise e => exists c, e = SystemExit c
                     end)).
  - intros e _ _. destruct e; simpl;
      try (split; [tauto | discriminate]).
    eexists. reflexivity.
  - intros _. simpl. split; [tauto | discriminate].
  - intros rq code p _ Hcode. simpl. split; [tauto |].
    intros _. eexists. reflexivity.
  - intros rq e _ He. destruct e; try discriminate; simpl.
    + split; [tauto | discriminate].
    + eexists. reflexivity.
  - intros p _. simpl. split; [tauto | discriminate].
Qed.

(** X17. The two handlers return 0 or 1 and catch every [Exception]: what
    leaves them is no [Exception] (a [KeyboardInterrupt], a [SystemExit]). *)
Theorem handlers_catch_exceptions E s ps w :
  match fst (handle_ping_command E s w) with
  | Ok code => code = 0%Z \/ code = 1%Z
  | Raise e => is_Exception e = false
  end
  /\ match fst (handle_get_command E s ps w) with
     | Ok code => code = 0%Z \/ code = 1%Z
     | Raise e => is_Exception e = false
     end.
Proof.
  split.
  - destruct (handlers_shape E s w (handle_ping_command E s w) (or_introl eq_refl))
      as [rq [(code & p & -> & Hcode) | (e & He & ->)]]; simpl; assumption.
  - destruct (handlers_shape E s w (handle_get_command E s ps w)
                (or_intror (ex_intro _ ps eq_refl)))
      as [rq [(code & p & -> & Hcode) | (e & He & ->)]]; simpl; assumption.
Qed.

(** X18. With the dispatcher started on [ping], the exit code is 0 exactly
    when the session returns a response whose status is not from 400 to
    599. *)
Theorem main_ping_exit_zero_iff E w args st :
  started E args st ->
  command args = Some (lit "ping") ->
  (fst (main E w) = Ok 0%Z
   <-> exists r, session_get E (ping_request (service_of st)) = Ok r
                 /\ error_status r = false).
Proof.
  intros Hst Hc.
  rewrite main_top_level, (main_body_ping E w args st Hst Hc), top_level_zero.
  rewrite handle_ping_command_exit.
  destruct (session_get E (ping_request (service_of st))) as [r | e].
  - destruct (error_status r) eqn:He; split.
    + discriminate.
    + intros (r' & Hr & He'). injection Hr as <-. congruence.
    + intros _. exists r. split; [reflexivity | exact He].
    + reflexivity.
  - split.
    + destruct (is_Exception e); discriminate.
    + intros (r' & Hr & _). discriminate.
Qed.

Lemma main_ping_exit_zero_iff_witness :
  fst (main (env_with {| command := Some (lit "ping"); params := None |}
               (Ok (response 301 [] (Undecodable [])))) World0) = Ok 0%Z
  <-> exists r,
        session_get (env_with {| command := Some (lit "ping"); params := None |}
                       (Ok (response 301 [] (Undecodable []))))
          (ping_request
             (service_of {| env := lit "dev"; api_base_url := lit "https://httpbin.org";
                            api_key := None; log_level := lit "INFO" |})) = Ok r
        /\ error_status r = false.
Proof.
  refine (main_ping_exit_zero_iff
            (env_with {| command := Some (lit "ping"); params := None |}
               (Ok (response 301 [] (Undecodable [])))) World0
            {| command := Some (lit "ping"); params := None |}
            {| env := lit "dev"; api_base_url := lit "https://httpbin.org";
               api_key := None; log_level := lit "INFO" |} _ eq_refl).
  repeat split.
Defined.

(** X19. With the dispatcher started on [get], the exit code is 0 exactly
    when the parameters parse, the session returns a response whose status
    is not from 400 to 599, and the body of that response decodes. *)
Theorem main_get_exit_zero_iff E w args st :
  started E args st ->
  command args = Some (lit "get") ->
  (fst (main E w) = Ok 0%Z
   <-> exists ps r j,
         parse_params (or_empty (params args)) = Ok ps
         /\ session_get E (get_request (service_of st) (or_None ps)) = Ok r
         /\ error_status r = false
         /\ content r = Decodes j).
Proof.
  intros Hst Hc.
  rewrite main_top_level, (main_body_get E w args st Hst Hc).
  destruct (parse_params (or_empty (params args))) as [ps | e].
  - rewrite top_level_zero, handle_get_command_exit.
    destruct (fst (get_with_params E (service_of st) (or_None ps) w)) as [j | e] eqn:Hg.
    + split; [| reflexivity]. intros _.
      apply get_with_params_ok in Hg. destruct Hg as (r & Hr & He & Hj).
      exists ps, r, j. repeat split; assumption.
    + split.
      * destruct (is_Exception e); discriminate.
      * intros (ps' & r & j & Hp & Hr & He & Hj). injection Hp as <-.
        assert (Hok : fst (get_with_params E (service_of st) (or_None ps) w) = Ok j).
        { apply get_with_params_ok. exists r. repeat split; assumption. }
        congruence.
  - simpl. split; [discriminate |].
    intros (ps & r & j & Hp & _). discriminate.
Qed.

Lemma main_get_exit_zero_iff_witness :
  fst (main (env_with {| command := Some (lit "get"); params := Some [lit "k=v"] |}
               (Ok (response 200 [] (Decodes JNull)))) World0) = Ok 0%Z
  <-> exists ps r j,
        parse_params (or_empty (Some [lit "k=v"])) = Ok ps
        /\ session_get (env_with {| command := Some (lit "get");
                                    params := Some [lit "k=v"] |}
                          (Ok (response 200 [] (Decodes JNull))))
             (get_request
                (service_of {| env := lit "dev";
                               api_base_url := lit "https://httpbin.org";
                               api_key := None; log_level := lit "INFO" |})
                (or_None ps)) = Ok r
        /\ error_status r = false
        /\ content r = Decodes j.
Proof.
  refine (main_get_exit_zero_iff
            (env_with {| command := Some (lit "get"); params := Some [lit "k=v"] |}
               (Ok (response 200 [] (Decodes JNull)))) World0
            {| command := Some (lit "get"); params := Some [lit "k=v"] |}
            {| env := lit "dev"; api_base_url := lit "https://httpbin.org";
               api_key := None; log_level := lit "INFO" |} _ eq_refl).
  repeat split.
Defined.

(** X20. With the dispatcher started on [get] and parameters that parse,
    [main] sends one request: to the base URL of the settings, without its
    trailing slashes, followed by ["/get"], with timeout 30, and with the
    parsed dictionary as its parameters, or with no parameters at all when
    the dictionary is empty. *)
Theorem main_get_sends_parsed_params E w args st ps :
  started E args st ->
  command args = Some (lit "get") ->
  parse_params (or_empty (params args)) = Ok ps ->
  sent (snd (main E w))
  = sent w ++ [ {| req_url := rstrip [SLASH] (api_base_url st) ++ lit "/get";
                   req_params := match ps with [] => None | _ => Some ps end;
                   req_timeout := 30%Z |} ].
Proof.
  intros Hst Hc Hp.
  rewrite main_sent_of_body, (main_body_get E w args st Hst Hc), Hp.
  pose proof (handle_get_command_run E (service_of st) ps w) as Hr. simpl in Hr.
  cbn [snd].
  destruct (fst (get_with_params E (service_of st) (or_None ps) w)) as [j | e].
  - rewrite Hr. reflexivity.
  - destruct (is_Exception e); rewrite Hr; reflexivity.
Qed.

Lemma main_get_sends_parsed_params_witness :
  sent (snd (main (env_with {| command := Some (lit "get");
                               params := Some [lit "k=v"; lit " n = 42 "] |}
                     (Raise (RequestException (lit "down") None))) World0))
  = sent World0
    ++ [ {| req_url := rstrip [SLASH] (lit "https://httpbin.org") ++ lit "/get";
            req_params := Some [(lit "k", PStr (lit "v")); (lit "n", PInt 42)];
            req_timeout := 30%Z |} ].
Proof.
  refine (main_get_sends_parsed_params
            (env_with {| command := Some (lit "get");
                         params := Some [lit "k=v"; lit " n = 42 "] |}
               (Raise (RequestException (lit "down") None))) World0
            {| command := Some (lit "get"); params := Some [lit "k=v"; lit " n = 42 "] |}
            {| env := lit "dev"; api_base_url := lit "https://httpbin.org";
               api_key := None; log_level := lit "INFO" |}
            [(lit "k", PStr (lit "v")); (lit "n", PInt 42)] _ eq_refl eq_refl).
  repeat split.
Defined.

(* ================================================================== *)
(** ** logging.py: the handlers *)

Section LoggerFacts.

Variable upper : str -> str.
Variable O : Logging.Outside.

Lemma setup_logger_ok lvl h :
  fst (Logging.setup_logger upper O lvl h) = Ok tt ->
  snd (Logging.setup_logger upper O lvl h)
  = h ++ [Logging.console upper lvl; Logging.logfile upper lvl].
Proof.
  unfold Logging.setup_logger, Logging.logger_add, Logging.console, Logging.logfile.
  destruct (Logging.mkdir_logs O); [| discriminate].
  destruct (Logging.add_handler O Logging.Stderr (upper lvl)); [| discriminate].
  destruct (Logging.add_handler O (Logging.LogFile (lit "logs/app.log")) (upper lvl));
    [| discriminate].
  intros _. cbn [snd]. rewrite <- app_assoc. reflexivity.
Qed.

(** X21. Every call of [setup_logger] that returns has added two handlers,
    one on [sys.stderr] and one on [logs/app.log], both at the upper-cased
    level, behind those already installed: a second call installs both once
    more. *)
Theorem setup_logger_adds_two lvl h :
  fst (Logging.setup_logger upper O lvl h) = Ok tt ->
  snd (Logging.setup_logger upper O lvl h)
  = h ++ [Logging.console upper lvl; Logging.logfile upper lvl].
Proof.
  unfold Logging.setup_logger, Logging.logger_add.
  destruct (Logging.mkdir_logs O) as [[] | e]; [| discriminate].
  destruct (Logging.add_handler O Logging.Stderr (upper lvl)) as [[] | e];
    [| discriminate].
  destruct (Logging.add_handler O (Logging.LogFile (lit "logs/app.log")) (upper lvl))
    as [[] | e]; [| discriminate].
  intros _. cbn [snd]. rewrite <- app_assoc. reflexivity.
Qed.

(** X22. [get_logger] leaves installed handlers alone: with a handler
    installed it returns at once and makes no call outside; it installs
    handlers only from none, and after a call of [setup_logger] or of
    [get_logger] that returned, a further call changes nothing. *)
Theorem get_logger_installs_once h :
  (h <> [] -> Logging.get_logger upper O h = (Ok tt, h))
  /\ (forall lvl,
         fst (Logging.setup_logger upper O lvl h) = Ok tt ->
         Logging.get_logger upper O (snd (Logging.setup_logger upper O lvl h))
         = (Ok tt, snd (Logging.setup_logger upper O lvl h)))
  /\ (fst (Logging.get_logger upper O h) = Ok tt ->
      Logging.get_logger upper O (snd (Logging.get_logger upper O h))
      = (Ok tt, snd (Logging.get_logger upper O h))).
Proof.
  assert (Hid : forall h', h' <> [] -> Logging.get_logger upper O h' = (Ok tt, h')).
  { intros h' Hne. unfold Logging.get_logger, Logging.get_logger_importing,
      Logging.config_settings. destruct h'; [congruence | reflexivity]. }
  split; [exact (Hid h) | split].
  - intros lvl Hok. apply Hid. rewrite (setup_logger_ok lvl h Hok).
    intros Hnil. apply app_eq_nil in Hnil. destruct Hnil as [_ Hnil]. discriminate.
  - intros Hok. apply Hid.
    destruct h as [|x h'].
    + unfold Logging.get_logger, Logging.get_logger_importing,
        Logging.config_settings in *.
      rewrite (setup_logger_ok (lit "INFO") [] Hok). discriminate.
    + rewrite (Hid (x :: h')); discriminate.
Qed.

(** X23. When [get_logger] installs the handlers it installs them at level
    [INFO]: config.py binds no name [settings], so the import fails and the
    level of the settings is never read. *)
Theorem get_logger_level_is_INFO :
  fst (Logging.get_logger upper O []) = Ok tt ->
  snd (Logging.get_logger upper O [])
  = [Logging.console upper (lit "INFO"); Logging.logfile upper (lit "INFO")].
Proof.
  unfold Logging.get_logger, Logging.get_logger_importing, Logging.config_settings.
  intros Hok. exact (setup_logger_ok (lit "INFO") [] Hok).
Qed.

(** X24. When the log file cannot be added, [setup_logger] raises with the
    handler on [sys.stderr] already installed, and [get_logger] then leaves
    things so: the file handler is not tried again. *)
Theorem setup_logger_partial lvl h e :
  Logging.mkdir_logs O = Ok tt ->
  Logging.add_handler O Logging.Stderr (upper lvl) = Ok tt ->
  Logging.add_handler O (Logging.LogFile (lit "logs/app.log")) (upper lvl) = Raise e ->
  Logging.setup_logger upper O lvl h = (Raise e, h ++ [Logging.console upper lvl])
  /\ Logging.get_logger upper O (h ++ [Logging.console upper lvl])
     = (Ok tt, h ++ [Logging.console upper lvl]).
Proof.
  intros Hm Hc Hf. split.
  - unfold Logging.setup_logger, Logging.logger_add. rewrite Hm, Hc, Hf. reflexivity.
  - unfold Logging.get_logger, Logging.get_logger_importing, Logging.config_settings.
    destruct (h ++ [Logging.console upper lvl]) eqn:E; [| reflexivity].
    apply app_eq_nil in E. destruct E as [_ E]. discriminate.
Qed.

End LoggerFacts.

Lemma setup_logger_adds_two_witness :
  snd (Logging.setup_logger (fun s => s) (Logging.outside_adding (fun _ => true))
         (lit "DEBUG") [Logging.console (fun s => s) (lit "DEBUG"); Logging.logfile (fun s => s) (lit "DEBUG")])
  = [Logging.console (fun s => s) (lit "DEBUG"); Logging.logfile (fun s => s) (lit "DEBUG")]
    ++ [Logging.console (fun s => s) (lit "DEBUG"); Logging.logfile (fun s => s) (lit "DEBUG")].
Proof.
  exact (setup_logger_adds_two (fun s => s) (Logging.outside_adding (fun _ => true))
           (lit "DEBUG")
           [Logging.console (fun s => s) (lit "DEBUG"); Logging.logfile (fun s => s) (lit "DEBUG")]
           eq_refl).
Defined.

Lemma get_logger_installs_once_witness :
  Logging.get_logger (fun s => s) (Logging.outside_adding (fun _ => false))
    [Logging.console (fun s => s) (lit "DEBUG")]
  = (Ok tt, [Logging.console (fun s => s) (lit "DEBUG")]).
Proof.
  refine (proj1 (get_logger_installs_once (fun s => s)
                   (Logging.outside_adding (fun _ => false))
                   [Logging.console (fun s => s) (lit "DEBUG")]) _).
  intros H. discriminate H.
Defined.

Lemma get_logger_level_is_INFO_witness :
  snd (Logging.get_logger (fun s => s) (Logging.outside_adding (fun _ => true)) [])
  = [Logging.console (fun s => s) (lit "INFO"); Logging.logfile (fun s => s) (lit "INFO")].
Proof.
  exact (get_logger_level_is_INFO (fun s => s) (Logging.outside_adding (fun _ => true)) eq_refl).
Defined.

Lemma setup_logger_partial_witness :
  let O := Logging.outside_adding (fun s => match s with
                                    | Logging.Stderr => true
                                    | Logging.LogFile _ => false
                                    end) in
  Logging.setup_logger (fun s => s) O (lit "INFO") []
  = (Raise (Exception (lit "Permission denied")),
     [] ++ [Logging.console (fun s => s) (lit "INFO")])
  /\ Logging.get_logger (fun s => s) O ([] ++ [Logging.console (fun s => s) (lit "INFO")])
     = (Ok tt, [] ++ [Logging.console (fun s => s) (lit "INFO")]).
Proof.
  exact (setup_logger_partial (fun s => s)
           (Logging.outside_adding (fun s => match s with
                                     | Logging.Stderr => true
                                     | Logging.LogFile _ => false
                                     end))
           (lit "INFO") [] (Exception (lit "Permission denied"))
           eq_refl eq_refl eq_refl).
Defined.

(* ================================================================== *)
(** ** config.py: the cached settings *)

Lemma after_calls_hit construct st n : forall c,
  Config.cached c = Some st ->
  Config.after_calls construct n c = c.
Proof.
  induction n as [|n IH]; intros c Hc; [reflexivity |].
  cbn [Config.after_calls]. unfold Config.get_settings. rewrite Hc. cbn [snd].
  exact (IH c Hc).
Qed.

(** X25. Once [get_settings] has returned settings, every later call returns
    the same settings without running [AppSettings()] again, whatever the
    environment has become; a call that raises caches nothing, and the next
    call runs [AppSettings()] anew. *)
Theorem get_settings_memoized construct c :
  (forall st n,
      fst (Config.get_settings construct c) = Ok st ->
      let c' := Config.after_calls construct n (snd (Config.get_settings construct c)) in
      Config.get_settings construct c' = (Ok st, c')
      /\ Config.constructions c'
         = Config.constructions (snd (Config.get_settings construct c)))
  /\ (forall e,
         fst (Config.get_settings construct c) = Raise e ->
         Config.get_settings construct (snd (Config.get_settings construct c))
         = match construct (S (Config.constructions c)) with
           | Ok st => (Ok st, {| Config.cached := Some st;
                                 Config.constructions := S (S (Config.constructions c)) |})
           | Raise e' => (Raise e', {| Config.cached := None;
                                       Config.constructions := S (S (Config.constructions c)) |})
           end).
Proof.
  split.
  - intros st n Hok c'.
    assert (Hc : Config.cached (snd (Config.get_settings construct c)) = Some st).
    { unfold Config.get_settings in *. destruct (Config.cached c) eqn:Hcc.
      - cbn in *. congruence.
      - destruct (construct (Config.constructions c)); cbn in *; congruence. }
    subst c'. rewrite (after_calls_hit construct st n _ Hc).
    split; [| reflexivity].
    unfold Config.get_settings at 1. rewrite Hc. reflexivity.
  - intros e Hraise. unfold Config.get_settings in *.
    destruct (Config.cached c) eqn:Hcc; [discriminate |].
    destruct (construct (Config.constructions c)); [discriminate |].
    reflexivity.
Qed.

Lemma get_settings_memoized_witness :
  let construct := fun n : nat =>
    match n with
    | 0 => Ok {| env := lit "dev"; api_base_url := lit "https://httpbin.org";
                 api_key := None; log_level := lit "INFO" |}
    | _ => Raise (Exception (lit "validation error"))
    end in
  let c0 := {| Config.cached := None; Config.constructions := 0 |} in
  let c' := Config.after_calls construct 3 (snd (Config.get_settings construct c0)) in
  Config.get_settings construct c'
  = (Ok {| env := lit "dev"; api_base_url := lit "https://httpbin.org";
           api_key := None; log_level := lit "INFO" |}, c')
  /\ Config.constructions c'
     = Config.constructions (snd (Config.get_settings construct c0)).
Proof.
  exact (proj1 (get_settings_memoized
                  (fun n : nat =>
                     match n with
                     | 0 => Ok {| env := lit "dev";
                                  api_base_url := lit "https://httpbin.org";
                                  api_key := None; log_level := lit "INFO" |}
                     | _ => Raise (Exception (lit "validation error"))
                     end)
                  {| Config.cached := None; Config.constructions := 0 |})
           _ 3 eq_refl).
Defined.

(* ================================================================== *)
(** ** parse_params: stripping, token by token *)

Lemma lstrip_with_kept p s :
  (forall c t, s = c :: t -> p c = false) -> lstrip_with p s = s.
Proof.
  destruct s as [|c t]; [reflexivity |].
  intros H. simpl. rewrite (H c t eq_refl). reflexivity.
Qed.

Lemma strip_idempotent s : strip (strip s) = strip s.
Proof.
  destruct (strip_spec s) as (a & b & _ & _ & _ & Hhead & Hlast).
  unfold strip at 1.
  rewrite (rstrip_with_kept isspace_char (strip s) Hlast).
  apply lstrip_with_kept. exact Hhead.
Qed.

Lemma contains_before sep s : contains sep (before sep s) = false.
Proof.
  induction s as [|c s IH]; simpl; [reflexivity |].
  destruct (char_eqb sep c) eqn:E; simpl; [reflexivity |].
  rewrite E. exact IH.
Qed.

Lemma contains_strip sep s : contains sep s = false -> contains sep (strip s) = false.
Proof.
  intros H. destruct (strip_spec s) as (a & b & Hs & _).
  rewrite Hs in H. unfold contains in *.
  rewrite !existsb_app in H.
  apply orb_false_iff in H. destruct H as [_ H].
  apply orb_false_iff in H. destruct H as [H _]. exact H.
Qed.

Lemma stripped_token_parts t :
  contains EQUALS t = true ->
  contains EQUALS (stripped_token t) = true
  /\ key_of (stripped_token t) = key_of t
  /\ value_of (stripped_token t) = value_of t.
Proof.
  intros Hc. unfold stripped_token. rewrite Hc.
  assert (Hk : contains EQUALS (key_of t) = false)
    by (apply contains_strip, contains_before).
  split; [apply contains_app | split].
  - unfold key_of at 1. rewrite (before_app EQUALS (key_of t) (value_of t) Hk).
    unfold key_of. apply strip_idempotent.
  - unfold value_of at 1. rewrite (after_app EQUALS (key_of t) (value_of t) Hk).
    unfold value_of. apply strip_idempotent.
Qed.

Lemma malformed_stripped t : malformed (stripped_token t) = malformed t.
Proof.
  destruct (contains EQUALS t) eqn:Hc.
  - destruct (stripped_token_parts t Hc) as (Hc' & Hk & _).
    unfold malformed. fold (key_of (stripped_token t)). fold (key_of t).
    rewrite Hc', Hc, Hk. reflexivity.
  - unfold stripped_token. rewrite Hc. reflexivity.
Qed.

Lemma parse_loop_stripped l : forall acc,
  returned (parse_loop l acc)
  = returned (parse_loop (List.map stripped_token l) acc).
Proof.
  induction l as [|t l IH]; intros acc; [reflexivity |].
  cbn [List.map]. destruct (malformed t) eqn:Hm.
  - rewrite (parse_loop_malformed t l acc Hm).
    rewrite (parse_loop_malformed (stripped_token t) _ acc)
      by (rewrite malformed_stripped; exact Hm).
    reflexivity.
  - rewrite (parse_loop_step t l acc Hm).
    rewrite (parse_loop_step (stripped_token t) _ acc)
      by (rewrite malformed_stripped; exact Hm).
    assert (Hc : contains EQUALS t = true).
    { unfold malformed in Hm. apply orb_false_iff in Hm. destruct Hm as [Hm _].
      apply negb_false_iff in Hm. exact Hm. }
    destruct (stripped_token_parts t Hc) as (_ & -> & ->).
    destruct (convert (value_of t)) as [v | e]; [apply IH | reflexivity].
Qed.

(** C9. [parse_params] strips the blanks around the key and around the value
    of every token before it tests the key for emptiness and converts the
    value.  For one token: the key stored is the stripped key, the value
    stored is the conversion of the stripped value, and a key of blanks only
    is refused as empty; [" a = 42 "] gives [{"a": 42}] and ["  =v"] is
    refused.  For a list: each turn of the loop works on the stripped key and
    the stripped value of its token; replacing every token by its stripped
    form changes nothing in what is returned; and for a token at any place of
    a list that parses, the stripped key is non-empty and is a key of the
    dictionary, holding the conversion of the stripped value unless a later
    token has the same stripped key. *)
Theorem parse_params_strips :
  (forall s, exists a b,
      s = a ++ strip s ++ b
      /\ forallb isspace_char a = true
      /\ forallb isspace_char b = true
      /\ (forall c t, strip s = c :: t -> isspace_char c = false)
      /\ (forall t c, strip s = t ++ [c] -> isspace_char c = false))
  /\ (forall k v,
         contains EQUALS k = false ->
         parse_params [k ++ EQUALS :: v]
         = if is_empty (strip k)
           then Raise (ValueError
                         (Text (lit "Empty key in parameter: " ++ k ++ EQUALS :: v)))
           else rbind (convert (strip v)) (fun x => Ok [(strip k, x)]))
  /\ parse_params [lit " a = 42 "] = Ok [(lit "a", PInt 42)]
  /\ parse_params [lit "  =v"]
     = Raise (ValueError (Text (lit "Empty key in parameter:   =v")))
  /\ (forall l, parse_params l = parse_loop l [])
  /\ (forall t rest acc,
         parse_loop (t :: rest) acc
         = if malformed t
           then Raise (ValueError (Text
                  (if contains EQUALS t
                   then lit "Empty key in parameter: " ++ t
                   else lit "Invalid parameter format: " ++ t
                        ++ lit ". Expected 'key=value'")))
           else rbind (convert (strip (after EQUALS t)))
                  (fun v => parse_loop rest (dict_set acc (strip (before EQUALS t)) v)))
  /\ (forall l,
         returned (parse_params l)
         = returned (parse_params (List.map stripped_token l)))
  /\ (forall l1 t l2 d,
         parse_params (l1 ++ t :: l2) = Ok d ->
         strip (before EQUALS t) <> []
         /\ In (strip (before EQUALS t)) (List.map fst d)
         /\ exists v,
              convert (strip (after EQUALS t)) = Ok v
              /\ (Forall (fun t' => strip (before EQUALS t') <> strip (before EQUALS t)) l2 ->
                  dict_get d (strip (before EQUALS t)) = Some v))
  /\ parse_params [lit " a = 42 "; lit "b =  x "; lit " a=7"]
     = Ok [(lit "a", PInt 7); (lit "b", PStr (lit "x"))]
  /\ parse_params [lit "a=1"; lit "  =v"]
     = Raise (ValueError (Text (lit "Empty key in parameter:   =v"))).
Proof.
  split; [exact strip_spec |].
  split; [exact parse_params_single |].
  split; [vm_compute; reflexivity |].
  split; [vm_compute; reflexivity |].
  split; [exact parse_params_loop |].
  split.
  { intros t rest acc. destruct (malformed t) eqn:Hm.
    - exact (parse_loop_malformed t rest acc Hm).
    - exact (parse_loop_step t rest acc Hm). }
  split.
  { intros l. rewrite !parse_params_loop. apply parse_loop_stripped. }
  split; [| split; vm_compute; reflexivity].
  intros l1 t l2 d. rewrite parse_params_loop, parse_loop_app.
  destruct (parse_loop l1 []) as [d1 | e]; [| discriminate]. cbn [rbind].
  intros H. destruct (parse_loop_ok t l2 d1 d H) as (Hm & v & Hv & Hrest).
  fold (key_of t). fold (value_of t).
  split; [| split].
  - unfold malformed in Hm. apply orb_false_iff in Hm. destruct Hm as [_ Hm].
    fold (key_of t) in Hm. intros Hnil. rewrite Hnil in Hm. discriminate.
  - rewrite (parse_loop_keys l2 _ d Hrest), fold_add_key_in. left.
    rewrite dict_set_keys, add_key_in. right. reflexivity.
  - exists v. split; [exact Hv |]. intros Hl2.
    rewrite (parse_loop_preserves (key_of t) l2 _ d Hrest Hl2).
    apply dict_get_set_same.
Qed.

Lemma parse_params_strips_witness :
  (parse_params [lit " a " ++ EQUALS :: lit " 42 "]
   = rbind (convert (lit "42")) (fun x => Ok [(lit "a", x)]))
  /\ (parse_params [lit " " ++ EQUALS :: lit "v"]
      = Raise (ValueError (Text (lit "Empty key in parameter:  =v"))))
  /\ (returned (parse_params [lit " a = 42 "; lit "b =  x "])
      = returned (parse_params [lit "a=42"; lit "b=x"]))
  /\ (lit "b" <> []
      /\ In (lit "b") (List.map fst [(lit "a", PInt 7); (lit "b", PStr (lit "x"))])
      /\ exists v,
           convert (lit "x") = Ok v
           /\ (Forall (fun t' => strip (before EQUALS t') <> lit "b") [lit " a=7"] ->
               dict_get [(lit "a", PInt 7); (lit "b", PStr (lit "x"))] (lit "b")
               = Some v)).
Proof.
  split; [| split; [| split]].
  - exact (proj1 (proj2 parse_params_strips) (lit " a ") (lit " 42 ") eq_refl).
  - exact (proj1 (proj2 parse_params_strips) (lit " ") (lit "v") eq_refl).
  - exact (proj1 (proj2 (proj2 (proj2 (proj2 (proj2 (proj2 parse_params_strips))))))
             [lit " a = 42 "; lit "b =  x "]).
  - exact (proj1 (proj2 (proj2 (proj2 (proj2 (proj2 (proj2 (proj2
             parse_params_strips)))))))
             [lit " a = 42 "] (lit "b =  x ") [lit " a=7"]
             [(lit "a", PInt 7); (lit "b", PStr (lit "x"))] eq_refl).
Defined.
